(** * RunMyPod: models and RunPod service

    A shallow embedding of [provisioner/models.py],
    [provisioner/services/runpod_client.py] and the state-changing
    handlers and the deployment worker of [provisioner/ui/app.py], with
    the properties of the model specification, the setup-script
    generator, the pod polling loop, the SSH setup generator and the
    worker that runs them in sequence.

    Python [str] values are [String.string], one [ascii] per character.
    [Optional[str]] is [option string]; Python truthiness is written out
    where the source relies on it. *)

From Stdlib Require Import String Ascii List Bool ZArith Lia Arith.
From Stdlib Require Import DecimalString DecimalZ DecimalPos.
Import ListNotations.
Open Scope list_scope.
Open Scope string_scope.

(* ================================================================= *)
(** ** Python string primitives *)

(** The one-character string [\n]. *)
Definition nl : string := String "010"%char EmptyString.

(** [s.startswith(p)] *)
Definition startswith (s p : string) : bool := String.prefix p s.

(** [needle in hay] on strings: [needle] occurs at some offset of [hay]. *)
Fixpoint str_in (needle hay : string) : bool :=
  String.prefix needle hay ||
  match hay with
  | EmptyString => false
  | String _ rest => str_in needle rest
  end.

(** [sep.join(ls)] *)
Definition join (sep : string) (ls : list string) : string :=
  String.concat sep ls.

(** [l.append(x)], as the new value of the list. *)
Definition list_append {A : Type} (l : list A) (x : A) : list A :=
  (l ++ [x])%list.

(** Truthiness of an [Optional[str]]: [None] and [""] are falsy. *)
Definition truthy (o : option string) : bool :=
  match o with
  | None => false
  | Some s => negb (s =? "")
  end.

(** [f"{o}"] for an [Optional[str]]. *)
Definition fmt_opt (o : option string) : string :=
  match o with
  | None => "None"
  | Some s => s
  end.

(** Code points that [str.isspace] accepts, below 256. *)
Definition isspace (c : ascii) : bool :=
  let n := nat_of_ascii c in
  ((9 <=? n)%nat && (n <=? 13)%nat) || ((28 <=? n)%nat && (n <=? 32)%nat)
  || (n =? 133)%nat || (n =? 160)%nat.

Fixpoint lstrip (s : string) : string :=
  match s with
  | EmptyString => EmptyString
  | String c rest => if isspace c then lstrip rest else s
  end.

Fixpoint rstrip (s : string) : string :=
  match s with
  | EmptyString => EmptyString
  | String c rest =>
      match rstrip rest with
      | EmptyString => if isspace c then EmptyString else String c EmptyString
      | r => String c r
      end
  end.

(** [s.strip()] *)
Definition strip (s : string) : string := rstrip (lstrip s).

(* ================================================================= *)
(** ** models.py *)

Inductive ModelType : Type :=
| CHECKPOINT
| LORA
| VAE
| EMBEDDING
| CONTROLNET.

(** [ModelType] derives from [str]: a member hashes and compares as its
    value, which is how it keys a dict. *)
Definition ModelType_value (t : ModelType) : string :=
  match t with
  | CHECKPOINT => "checkpoint"
  | LORA => "lora"
  | VAE => "vae"
  | EMBEDDING => "embedding"
  | CONTROLNET => "controlnet"
  end.

Record ModelSpec : Type := mkModelSpec {
  name : string;
  url : string;
  type : ModelType;
  subfolder : option string
}.

(** [d.get(k, default)] on a dict given by its items. *)
Fixpoint dict_get (d : list (string * string)) (k default : string) : string :=
  match d with
  | [] => default
  | (k', v) :: rest => if k' =? k then v else dict_get rest k default
  end.

(** The local [mapping] of [install_path], keyed by the members' values. *)
Definition mapping : list (string * string) :=
  [ (ModelType_value CHECKPOINT, "checkpoints");
    (ModelType_value LORA, "loras");
    (ModelType_value VAE, "vae");
    (ModelType_value EMBEDDING, "embeddings");
    (ModelType_value CONTROLNET, "controlnet") ].

(** [mapping.get(t, "checkpoints")] for a key [t]. *)
Definition mapping_get (t : string) : string :=
  dict_get mapping t "checkpoints".

(** [ModelSpec.install_path] *)
Definition install_path (self : ModelSpec) : string :=
  match subfolder self with
  | Some s =>
      if negb (s =? "") then s
      else mapping_get (ModelType_value (type self))
  | None => mapping_get (ModelType_value (type self))
  end.

Record ProvisioningConfig : Type := mkProvisioningConfig {
  api_key : string;
  hf_token : option string;
  gpu_type_id : string;
  cloud_type : string;
  volume_size_gb : Z;
  container_disk_size_gb : Z;
  template_id : string;
  models : list ModelSpec;
  comfyui_repo : string;
  comfyui_manager_repo : string
}.

(** A configuration with the field defaults of the class. *)
Definition default_config (key : string) : ProvisioningConfig :=
  {| api_key := key;
     hf_token := None;
     gpu_type_id := "NVIDIA GeForce RTX 3090";
     cloud_type := "COMMUNITY";
     volume_size_gb := 40;
     container_disk_size_gb := 40;
     template_id := "runpod/pytorch:2.0.1-py3.10-cuda11.8.0-devel-ubuntu22.04";
     models := [];
     comfyui_repo := "https://github.com/comfyanonymous/ComfyUI";
     comfyui_manager_repo := "https://github.com/ltdrdata/ComfyUI-Manager.git" |}.

(* ================================================================= *)
(** ** runpod_client.py: the setup script *)

Record RunPodService : Type := mkRunPodService {
  service_api_key : string
}.

(** The initial value of the local list [script]. *)
Definition script_head (config : ProvisioningConfig) : list string :=
  [ "#!/bin/bash";
    "set -e";
    "echo 'Starting ComfyUI Provisioning...'";
    "cd /workspace";
    "";
    "# Install ComfyUI";
    "if [ ! -d 'ComfyUI' ]; then";
    "  git clone " ++ comfyui_repo config;
    "fi";
    "cd ComfyUI";
    "pip install -r requirements.txt";
    "";
    "# Install Manager";
    "cd custom_nodes";
    "if [ ! -d 'ComfyUI-Manager' ]; then";
    "  git clone " ++ comfyui_manager_repo config;
    "fi";
    "cd ..";
    "";
    "# Download Models" ].

(** One iteration of [for model in config.models], on the list built so
    far. *)
Definition script_step (config : ProvisioningConfig)
    (script : list string) (model : ModelSpec) : list string :=
  let path := "models/" ++ install_path model in
  if startswith (url model) "http" then
    let script := list_append script ("echo 'Downloading " ++ name model ++ "...'") in
    let wget_args :=
      if str_in "huggingface.co" (url model) && truthy (hf_token config)
      then "--header='Authorization: Bearer " ++ fmt_opt (hf_token config) ++ "'"
      else "" in
    list_append script ("wget " ++ wget_args ++ " -O '" ++ path ++ "/"
                        ++ name model ++ "' '" ++ url model ++ "'")
  else script.

(** The list [script] when [generate_setup_script] joins it. *)
Definition setup_script_lines (self : RunPodService)
    (config : ProvisioningConfig) : list string :=
  list_append
    (fold_left (script_step config) (models config) (script_head config))
    "echo 'Provisioning Complete!'".

(** [RunPodService.generate_setup_script] *)
Definition generate_setup_script (self : RunPodService)
    (config : ProvisioningConfig) : string :=
  join nl (setup_script_lines self config).

(* ================================================================= *)
(** ** runpod_client.py: pods *)

(** One entry of [pod['runtime']['ports']]. *)
Record PortMapping : Type := mkPortMapping {
  privatePort : Z;
  publicPort : Z;
  ip : string
}.

(** What the key ['runtime'] of a pod dict holds: no such key, [None],
    or a dict whose ['ports'] is absent or [None] ([None] here) or a
    list. *)
Inductive Runtime : Type :=
| RuntimeMissing
| RuntimeNone
| RuntimeDict (ports : option (list PortMapping)).

Record Pod : Type := mkPod {
  id : string;
  desiredStatus : string;
  runtime : Runtime
}.

Inductive Exn : Type :=
| RuntimeError (msg : string)
| AttributeError (msg : string).

(** What the service does to the outside, in the order it does it. *)
Inductive Effect : Type :=
| GetPod
| Sleep (seconds : Z)
| Connect (host : string) (port : Z) (username : string) (timeout : Z)
| ExecCommand (cmd : string)
| Close
| Yield (line : string).

(** Truthiness of a list. *)
Definition nonempty {A : Type} (l : list A) : bool :=
  match l with
  | [] => false
  | _ :: _ => true
  end.

(** [pod.get('runtime', {}).get('ports')], as its truth value; [None]
    has no [get]. *)
Definition runtime_default_get_ports (pod : Pod) : Exn + bool :=
  match runtime pod with
  | RuntimeMissing => inr false
  | RuntimeNone => inl (AttributeError "'NoneType' object has no attribute 'get'")
  | RuntimeDict None => inr false
  | RuntimeDict (Some ps) => inr (nonempty ps)
  end.

Inductive WaitResult : Type :=
| Returned (pod : Pod)
| Raised (e : Exn)
| Polling.

(** [RunPodService.wait_for_pod], on the pods that successive
    [runpod.get_pod] calls answer.  [while True] ends by [return] or
    [raise] only: where the answers run out the loop is still
    [Polling]. *)
Fixpoint wait_for_pod (self : RunPodService) (answers : list Pod)
    : WaitResult * list Effect :=
  match answers with
  | [] => (Polling, [])
  | pod :: later =>
      let ready :=
        if desiredStatus pod =? "RUNNING" then runtime_default_get_ports pod
        else inr false in
      match ready with
      | inl e => (Raised e, [GetPod])
      | inr true => (Returned pod, [GetPod])
      | inr false =>
          if desiredStatus pod =? "EXITED"
          then (Raised (RuntimeError "Pod exited unexpectedly"), [GetPod])
          else
            let (res, effects) := wait_for_pod self later in
            (res, GetPod :: Sleep 2 :: effects)
      end
  end.

(** Number of [runpod.get_pod] calls in a run. *)
Definition polls (effects : list Effect) : nat :=
  List.length (filter (fun e => match e with GetPod => true | _ => false end)
                 effects).

(* ================================================================= *)
(** ** runpod_client.py: the SSH setup *)

(** What the SSH side answers: the [i]-th [client.connect] raises an
    exception with the given text or succeeds ([None]); the exit status
    of the command that writes the script; what successive
    [stdout.readline()] calls return while the script runs. *)
Record Remote : Type := mkRemote {
  connect_error : nat -> option string;
  write_exit_status : Z;
  readlines : list string
}.

(** The scan of [pod['runtime']['ports']] for private port 22, giving
    [(ssh_port, public_ip)]. *)
Fixpoint find_ssh (ps : list PortMapping) : option Z * option string :=
  match ps with
  | [] => (None, None)
  | port :: rest =>
      if (privatePort port =? 22)%Z
      then (Some (publicPort port), Some (ip port))
      else find_ssh rest
  end.

(** [(ssh_port, public_ip)] after the guarded scan. *)
Definition ssh_info (pod : Pod) : option Z * option string :=
  match runtime pod with
  | RuntimeDict (Some ps) => if nonempty ps then find_ssh ps else (None, None)
  | _ => (None, None)
  end.

Inductive LoopExit : Type :=
| Break
| Exhausted
| Return.

(** [for i in range(retries)] around [client.connect], over the values
    of [i] still to come. *)
Fixpoint connect_loop (remote : Remote) (public_ip : string) (ssh_port : Z)
    (retries : nat) (range : list nat) : list Effect * LoopExit :=
  match range with
  | [] => ([], Exhausted)
  | i :: rest =>
      match connect_error remote i with
      | None => ([Connect public_ip ssh_port "root" 10], Break)
      | Some e =>
          if (i =? retries - 1)%nat
          then ([Connect public_ip ssh_port "root" 10;
                 Yield ("Failed to connect via SSH: " ++ e)], Return)
          else
            let (effects, how) :=
              connect_loop remote public_ip ssh_port retries rest in
            ((Connect public_ip ssh_port "root" 10
              :: Sleep 2 :: Yield "Waiting for SSH..." :: effects)%list, how)
      end
  end.

(** [iter(stdout.readline, "")]: the lines up to the first [""]. *)
Fixpoint iter_readline (ls : list string) : list string :=
  match ls with
  | [] => []
  | l :: rest => if l =? "" then [] else l :: iter_readline rest
  end.

(** [RunPodService.execute_setup], run to exhaustion: every effect of
    the generator in order, the yielded lines among them.  The calls
    after the connection answer without raising here; [execute_setup_run]
    below has the runs in which one of them raises. *)
Definition execute_setup (self : RunPodService) (pod : Pod)
    (config : ProvisioningConfig) (remote : Remote) : list Effect :=
  match ssh_info pod with
  | (Some ssh_port, Some public_ip) =>
      if (ssh_port =? 0)%Z || (public_ip =? "")
      then [Yield "Error: Could not find SSH port."]
      else
        let retries := 10%nat in
        let (tried, how) :=
          connect_loop remote public_ip ssh_port retries (seq 0 retries) in
        match how with
        | Return => (Sleep 5 :: tried)%list
        | _ =>
            let script_content := generate_setup_script self config in
            let cmd := "cat << 'EOF' > /workspace/setup_comfy.sh" ++ nl
                       ++ script_content ++ nl ++ "EOF" ++ nl in
            if negb (write_exit_status remote =? 0)%Z
            then (Sleep 5 :: tried
                  ++ [ExecCommand cmd; Yield "Failed to write setup script."])%list
            else
              (Sleep 5 :: tried
               ++ ExecCommand cmd
               :: ExecCommand
                    "chmod +x /workspace/setup_comfy.sh && /workspace/setup_comfy.sh"
               :: map (fun line => Yield (strip line))
                    (iter_readline (readlines remote))
               ++ [Close])%list
        end
  | _ => [Yield "Error: Could not find SSH port."]
  end.

(** The output sequence of a run: the lines it yields. *)
Fixpoint yielded (effects : list Effect) : list string :=
  match effects with
  | [] => []
  | Yield line :: rest => line :: yielded rest
  | _ :: rest => yielded rest
  end.

(** The [client.connect] calls of a run. *)
Definition connects (effects : list Effect) : nat :=
  List.length (filter (fun e => match e with Connect _ _ _ _ => true | _ => false end)
                 effects).

(** The [client.exec_command] calls of a run. *)
Definition execs (effects : list Effect) : nat :=
  List.length (filter (fun e => match e with ExecCommand _ => true | _ => false end)
                 effects).

(* ================================================================= *)
(** ** Derived views of the script *)

(** The value of the local [wget_args] for a model. *)
Definition wget_args (config : ProvisioningConfig) (model : ModelSpec) : string :=
  if str_in "huggingface.co" (url model) && truthy (hf_token config)
  then "--header='Authorization: Bearer " ++ fmt_opt (hf_token config) ++ "'"
  else "".

(** The [wget] line appended for a model that passes the URL check. *)
Definition download_line (config : ProvisioningConfig) (model : ModelSpec) : string :=
  "wget " ++ wget_args config model ++ " -O '" ++ "models/" ++ install_path model
  ++ "/" ++ name model ++ "' '" ++ url model ++ "'".

(** The [echo] line appended before it. *)
Definition announce_line (model : ModelSpec) : string :=
  "echo 'Downloading " ++ name model ++ "...'".

(** The lines one model adds to the script. *)
Definition model_lines (config : ProvisioningConfig) (model : ModelSpec) : list string :=
  script_step config [] model.

(** The check the loop makes on a model's URL. *)
Definition url_checked (model : ModelSpec) : bool :=
  startswith (url model) "http".

(** A script line that is a download command. *)
Definition is_download (line : string) : bool :=
  startswith line "wget ".

(** A download command that carries an authorization header. *)
Definition has_auth_header (line : string) : bool :=
  startswith line "wget --header='Authorization: Bearer ".

(** [needle] occurs in [hay]. *)
Definition occurs (needle hay : string) : Prop :=
  exists before after, hay = before ++ needle ++ after.

(** The model of the end-to-end scenarios. *)
Definition scenario_model : ModelSpec :=
  mkModelSpec "a.safetensors" "https://huggingface.co/x/a.safetensors"
    CHECKPOINT None.

(** A configuration with the token [tok] and the given models. *)
Definition scenario_config (ms : list ModelSpec) : ProvisioningConfig :=
  mkProvisioningConfig "key" (Some "tok") "NVIDIA GeForce RTX 3090" "COMMUNITY"
    40 40 "runpod/pytorch:2.0.1-py3.10-cuda11.8.0-devel-ubuntu22.04" ms
    "https://github.com/comfyanonymous/ComfyUI"
    "https://github.com/ltdrdata/ComfyUI-Manager.git".

(** The download line scenario 2 expects. *)
Definition scenario_line : string :=
  "wget --header='Authorization: Bearer tok' -O 'models/checkpoints/a.safetensors' 'https://huggingface.co/x/a.safetensors'".

(* ================================================================= *)
(** ** The specification's wording, for comparison *)

(** The text of a URL after its first ["://"], if any. *)
Fixpoint spec_after_scheme (u : string) : option string :=
  if String.prefix "://" u then Some (substring 3 (String.length u - 3) u)
  else match u with
       | EmptyString => None
       | String _ rest => spec_after_scheme rest
       end.

Fixpoint spec_until_delim (s : string) : string :=
  match s with
  | EmptyString => EmptyString
  | String c rest =>
      if ((c =? "/") || (c =? "?") || (c =? "#"))%char then EmptyString
      else String c (spec_until_delim rest)
  end.

(** "The URL's host": what stands between ["://"] and the next ["/"],
    ["?"] or ["#"]. *)
Definition spec_url_host (u : string) : string :=
  match spec_after_scheme u with
  | Some rest => spec_until_delim rest
  | None => EmptyString
  end.

(** "The model URL's host contains the Hugging Face domain and a
    non-empty hf_token is configured". *)
Definition spec_auth_expected (config : ProvisioningConfig) (model : ModelSpec) : bool :=
  str_in "huggingface.co" (spec_url_host (url model)) && truthy (hf_token config).


(** "The fixed per-type default directory". *)
Definition spec_default_dir (t : ModelType) : string :=
  match t with
  | CHECKPOINT => "checkpoints"
  | LORA => "loras"
  | VAE => "vae"
  | EMBEDDING => "embeddings"
  | CONTROLNET => "controlnet"
  end.

(** A polled pod on which [wait_for_pod] neither returns nor raises. *)
Definition keeps_polling (pod : Pod) : bool :=
  negb (desiredStatus pod =? "EXITED")
  && (negb (desiredStatus pod =? "RUNNING")
      || match runtime pod with
         | RuntimeMissing => true
         | RuntimeNone => false
         | RuntimeDict None => true
         | RuntimeDict (Some ps) => negb (nonempty ps)
         end).

(** The effects of [n] polls that each went on to sleep. *)
Fixpoint polled (n : nat) : list Effect :=
  match n with
  | O => []
  | S k => GetPod :: Sleep 2 :: polled k
  end.

(** The effects of [n] failed connection attempts that each went on to
    wait. *)
Fixpoint waited (host : string) (port : Z) (n : nat) : list Effect :=
  match n with
  | O => []
  | S k => Connect host port "root" 10 :: Sleep 2 :: Yield "Waiting for SSH..."
           :: waited host port k
  end.

(** The port mappings a pod carries, none when it has no runtime. *)
Definition pod_ports (pod : Pod) : list PortMapping :=
  match runtime pod with
  | RuntimeDict (Some ps) => ps
  | _ => []
  end.

(* ================================================================= *)
(** ** runpod_client.py: creating a pod *)

(** [f"{n}"] for an [int]. *)
Definition fmt_int (z : Z) : string :=
  NilZero.string_of_int (Z.to_int z).

(** The keyword arguments [create_pod] passes to [runpod.create_pod]. *)
Record PodRequest : Type := mkPodRequest {
  request_name : string;
  image_name : string;
  request_gpu_type_id : string;
  request_cloud_type : string;
  container_disk_in_gb : Z;
  volume_in_gb : Z;
  request_ports : string;
  env : list (string * string)
}.

(** The request of [create_pod] when [int(time.time())] is [now]. *)
Definition create_pod_request (config : ProvisioningConfig) (now : Z)
    : PodRequest :=
  {| request_name := "ComfyUI-" ++ fmt_int now;
     image_name := template_id config;
     request_gpu_type_id := gpu_type_id config;
     request_cloud_type := cloud_type config;
     container_disk_in_gb := container_disk_size_gb config;
     volume_in_gb := volume_size_gb config;
     request_ports := "8188/http,22/tcp";
     env := [ ("JUPYTER_PASSWORD", "runpod");
              ("HF_TOKEN",
               if truthy (hf_token config) then fmt_opt (hf_token config)
               else "") ] |}.

(** [RunPodService.create_pod]; [api] is [runpod.create_pod], which
    answers a pod or raises an exception with the given text. *)
Definition create_pod (self : RunPodService) (config : ProvisioningConfig)
    (now : Z) (api : PodRequest -> string + Pod) : Exn + Pod :=
  match api (create_pod_request config now) with
  | inr pod => inr pod
  | inl e => inl (RuntimeError ("Failed to create pod: " ++ e))
  end.

(** Seconds slept in a run. *)
Fixpoint slept (effects : list Effect) : Z :=
  match effects with
  | [] => 0
  | Sleep n :: rest => n + slept rest
  | _ :: rest => slept rest
  end.

(** Whether a run closes the SSH client. *)
Definition closes (effects : list Effect) : bool :=
  existsb (fun e => match e with Close => true | _ => false end) effects.

(** A [client.connect] call to the given endpoint as [root] with a
    timeout of 10, or an effect that is no [client.connect] call. *)
Definition connects_to (host : string) (port : Z) (e : Effect) : Prop :=
  match e with
  | Connect h p user timeout =>
      h = host /\ p = port /\ user = "root" /\ timeout = 10%Z
  | _ => True
  end.

(** The command that writes the script on the pod. *)
Definition write_command (self : RunPodService) (config : ProvisioningConfig)
    : string :=
  "cat << 'EOF' > /workspace/setup_comfy.sh" ++ nl
  ++ generate_setup_script self config ++ nl ++ "EOF" ++ nl.

(** The command that runs it. *)
Definition run_command : string :=
  "chmod +x /workspace/setup_comfy.sh && /workspace/setup_comfy.sh".

(* ================================================================= *)
(** ** ui/app.py: the wizard's state *)

(** The class attributes [config_data] and [ssh_key_path] of
    [ProvisionerApp]. *)
Record AppState : Type := mkAppState {
  config_data : ProvisioningConfig;
  ssh_key_path : option string
}.

(** What a handler asks of the toolkit. *)
Inductive UiEffect : Type :=
| Notify (message severity : string)
| PushScreen (screen : string)
| MountLabel (text : string)
| ClearInput (widget : string).

(** [config.api_key = v] *)
Definition set_api_key (v : string) (c : ProvisioningConfig) : ProvisioningConfig :=
  mkProvisioningConfig v (hf_token c) (gpu_type_id c) (cloud_type c)
    (volume_size_gb c) (container_disk_size_gb c) (template_id c) (models c)
    (comfyui_repo c) (comfyui_manager_repo c).

(** [config.hf_token = v] *)
Definition set_hf_token (v : option string) (c : ProvisioningConfig)
    : ProvisioningConfig :=
  mkProvisioningConfig (api_key c) v (gpu_type_id c) (cloud_type c)
    (volume_size_gb c) (container_disk_size_gb c) (template_id c) (models c)
    (comfyui_repo c) (comfyui_manager_repo c).

(** [config.models.append(spec)] *)
Definition append_model (spec : ModelSpec) (c : ProvisioningConfig)
    : ProvisioningConfig :=
  mkProvisioningConfig (api_key c) (hf_token c) (gpu_type_id c) (cloud_type c)
    (volume_size_gb c) (container_disk_size_gb c) (template_id c)
    (list_append (models c) spec)
    (comfyui_repo c) (comfyui_manager_repo c).

(** [ConfigScreen.submit], on the values of the three inputs. *)
Definition ConfigScreen_submit (key token ssh_key : string) (app : AppState)
    : AppState * list UiEffect :=
  if key =? "" then (app, [Notify "API Key is required" "error"])
  else
    let config := set_api_key key (config_data app) in
    let config :=
      if negb (token =? "") then set_hf_token (Some token) config else config in
    let path :=
      if negb (ssh_key =? "") then Some ssh_key else ssh_key_path app in
    (mkAppState config path, [PushScreen "provision_screen"]).

(** The members of [ModelType] in the order the class lists them. *)
Definition ModelType_members : list ModelType :=
  [CHECKPOINT; LORA; VAE; EMBEDDING; CONTROLNET].

Definition ModelType_name (t : ModelType) : string :=
  match t with
  | CHECKPOINT => "CHECKPOINT"
  | LORA => "LORA"
  | VAE => "VAE"
  | EMBEDDING => "EMBEDDING"
  | CONTROLNET => "CONTROLNET"
  end.

(** [next((t for t in ModelType if t.value == m_type_val),
    ModelType.CHECKPOINT)] *)
Definition member_of_value (m_type_val : string) : ModelType :=
  match find (fun t => ModelType_value t =? m_type_val) ModelType_members with
  | Some t => t
  | None => CHECKPOINT
  end.

(** [ModelScreen.on_button_pressed], on the pressed button's id and the
    values of the three inputs. *)
Definition ModelScreen_on_button_pressed (button url name m_type_val : string)
    (app : AppState) : AppState * list UiEffect :=
  if button =? "add_btn" then
    let m_type := member_of_value m_type_val in
    if (url =? "") || (name =? "")
    then (app, [Notify "URL and Name are required" "error"])
    else
      let spec := mkModelSpec name url m_type None in
      (mkAppState (append_model spec (config_data app)) (ssh_key_path app),
       [MountLabel ("[" ++ ModelType_name m_type ++ "] " ++ name);
        ClearInput "model_url"; ClearInput "model_name"])
  else if button =? "deploy_btn" then (app, [PushScreen "deploy_screen"])
  else (app, []).

(* ================================================================= *)
(** ** ui/app.py: the deployment worker *)

(** What the worker does, in order: a line it logs, the request it
    creates a pod with, or an effect of the service. *)
Inductive Event : Type :=
| Log (msg : string)
| CreatePod (request : PodRequest)
| Did (e : Effect).

(** How the worker ends: it returns, or it is still inside
    [wait_for_pod]. *)
Inductive Ending : Type :=
| Finished
| Waiting.

(** The outside of one deployment: the clock, the provider's answers to
    [create_pod] and to successive [get_pod] calls, and the SSH side. *)
Record World : Type := mkWorld {
  now : Z;
  create_answer : PodRequest -> string + Pod;
  get_pod_answers : list Pod;
  remote : Remote
}.

(** [str(e)] *)
Definition str_exn (e : Exn) : string :=
  match e with
  | RuntimeError msg => msg
  | AttributeError msg => msg
  end.

(** [for line in service.execute_setup(...): log(f"[REMOTE] {line}")],
    over the effects of the generator. *)
Fixpoint relay (effects : list Effect) : list Event :=
  match effects with
  | [] => []
  | Yield line :: rest => Did (Yield line) :: Log ("[REMOTE] " ++ line) :: relay rest
  | e :: rest => Did e :: relay rest
  end.

(** [ready_pod.get('runtime', {}).get('ports', [])]; a runtime dict
    without ['ports'] gives the default. *)
Definition runtime_default_get_ports_list (pod : Pod) : Exn + list PortMapping :=
  match runtime pod with
  | RuntimeMissing => inr []
  | RuntimeNone => inl (AttributeError "'NoneType' object has no attribute 'get'")
  | RuntimeDict None => inr []
  | RuntimeDict (Some ps) => inr ps
  end.

(** [next((p for p in ports if p['privatePort'] == 8188), None)] *)
Definition find_http (ports : list PortMapping) : option PortMapping :=
  find (fun p => (privatePort p =? 8188)%Z) ports.

(** The last line of a deployment that reached the end of the [try]
    block. *)
Definition url_line (ports : list PortMapping) : string :=
  match find_http ports with
  | Some http_port =>
      "Access ComfyUI at: " ++ ("http://" ++ ip http_port ++ ":"
                                ++ fmt_int (publicPort http_port))
  | None => "Could not determine public URL. Check RunPod dashboard."
  end.

(** [DeployScreen.perform_deployment], in the runs where no call of
    [execute_setup] after the connection raises; [perform_deployment_run]
    below has the others. *)
Definition perform_deployment (app : AppState) (world : World)
    : list Event * Ending :=
  let config := config_data app in
  let service := mkRunPodService (api_key config) in
  let request := create_pod_request config (now world) in
  let begun :=
    [ Log "Initializing RunPod Service...";
      Log ("Creating Pod (GPU: " ++ gpu_type_id config ++ ")...");
      CreatePod request ] in
  match create_pod service config (now world) (create_answer world) with
  | inl e => ((begun ++ [Log ("ERROR: " ++ str_exn e)])%list, Finished)
  | inr pod =>
      let created :=
        (begun
         ++ [ Log ("Pod created: " ++ id pod);
              Log "Waiting for pod to start (this may take a few minutes)..." ])%list in
      match wait_for_pod service (get_pod_answers world) with
      | (Polling, polling) => ((created ++ map Did polling)%list, Waiting)
      | (Raised e, polling) =>
          ((created ++ map Did polling ++ [Log ("ERROR: " ++ str_exn e)])%list,
           Finished)
      | (Returned ready_pod, polling) =>
          let installed :=
            (created ++ map Did polling
             ++ [ Log "Pod is RUNNING!";
                  Log "Connecting via SSH to install ComfyUI and Models..." ]
             ++ relay (execute_setup service ready_pod config (remote world))
             ++ [ Log "------------------------------------------------";
                  Log "Provisioning Complete!" ])%list in
          match runtime_default_get_ports_list ready_pod with
          | inl e => ((installed ++ [Log ("ERROR: " ++ str_exn e)])%list, Finished)
          | inr ports => ((installed ++ [Log (url_line ports)])%list, Finished)
          end
      end
  end.

(** The lines a run logs. *)
Fixpoint logged (events : list Event) : list string :=
  match events with
  | [] => []
  | Log msg :: rest => msg :: logged rest
  | _ :: rest => logged rest
  end.

(** The service effects of a run. *)
Fixpoint did (events : list Event) : list Effect :=
  match events with
  | [] => []
  | Did e :: rest => e :: did rest
  | _ :: rest => did rest
  end.

(* ================================================================= *)
(** ** Runs cut short by an exception *)

(** [execute_setup] catches only what [client.connect] raises.  The
    calls that follow the connection can raise too: the [exec_command]
    that writes the script (with its [recv_exit_status]), the
    [exec_command] that runs it, and a [stdout.readline()].  A [Faults]
    says which of them raises in a run, if any, and with which text; the
    calls that do not raise answer as [Remote] says.  [read_raises] names
    the read by its index, counting from 0. *)
Record Faults : Type := mkFaults {
  write_raises : option string;
  run_raises : option string;
  read_raises : option (nat * string)
}.

(** No call raises. *)
Definition no_faults : Faults := mkFaults None None None.

(** [RunPodService.execute_setup] run until it is exhausted or an
    exception leaves it: its effects in order, and the text of that
    exception if there is one. *)
Definition execute_setup_run (self : RunPodService) (pod : Pod)
    (config : ProvisioningConfig) (remote : Remote) (faults : Faults)
    : list Effect * option string :=
  match ssh_info pod with
  | (Some ssh_port, Some public_ip) =>
      if (ssh_port =? 0)%Z || (public_ip =? "")
      then ([Yield "Error: Could not find SSH port."], None)
      else
        let retries := 10%nat in
        let (tried, how) :=
          connect_loop remote public_ip ssh_port retries (seq 0 retries) in
        match how with
        | Return => ((Sleep 5 :: tried)%list, None)
        | _ =>
            let script_content := generate_setup_script self config in
            let cmd := "cat << 'EOF' > /workspace/setup_comfy.sh" ++ nl
                       ++ script_content ++ nl ++ "EOF" ++ nl in
            match write_raises faults with
            | Some e => ((Sleep 5 :: tried ++ [ExecCommand cmd])%list, Some e)
            | None =>
                if negb (write_exit_status remote =? 0)%Z
                then ((Sleep 5 :: tried
                       ++ [ExecCommand cmd;
                           Yield "Failed to write setup script."])%list, None)
                else
                  let run :=
                    "chmod +x /workspace/setup_comfy.sh && /workspace/setup_comfy.sh" in
                  match run_raises faults with
                  | Some e =>
                      ((Sleep 5 :: tried
                        ++ [ExecCommand cmd; ExecCommand run])%list, Some e)
                  | None =>
                      let lines := iter_readline (readlines remote) in
                      let finished :=
                        ((Sleep 5 :: tried
                          ++ ExecCommand cmd :: ExecCommand run
                          :: map (fun line => Yield (strip line)) lines
                          ++ [Close])%list, None) in
                      match read_raises faults with
                      | Some (n, e) =>
                          if (n <=? List.length lines)%nat
                          then ((Sleep 5 :: tried
                                 ++ ExecCommand cmd :: ExecCommand run
                                 :: map (fun line => Yield (strip line))
                                      (firstn n lines))%list, Some e)
                          else finished
                      | None => finished
                      end
                  end
            end
        end
  | _ => ([Yield "Error: Could not find SSH port."], None)
  end.

(** [DeployScreen.perform_deployment] where the calls of
    [execute_setup] may raise: an exception that leaves the generator is
    caught by the worker's [except] and logged. *)
Definition perform_deployment_run (app : AppState) (world : World)
    (faults : Faults) : list Event * Ending :=
  let config := config_data app in
  let service := mkRunPodService (api_key config) in
  let request := create_pod_request config (now world) in
  let begun :=
    [ Log "Initializing RunPod Service...";
      Log ("Creating Pod (GPU: " ++ gpu_type_id config ++ ")...");
      CreatePod request ] in
  match create_pod service config (now world) (create_answer world) with
  | inl e => ((begun ++ [Log ("ERROR: " ++ str_exn e)])%list, Finished)
  | inr pod =>
      let created :=
        (begun
         ++ [ Log ("Pod created: " ++ id pod);
              Log "Waiting for pod to start (this may take a few minutes)..." ])%list in
      match wait_for_pod service (get_pod_answers world) with
      | (Polling, polling) => ((created ++ map Did polling)%list, Waiting)
      | (Raised e, polling) =>
          ((created ++ map Did polling ++ [Log ("ERROR: " ++ str_exn e)])%list,
           Finished)
      | (Returned ready_pod, polling) =>
          let connecting :=
            (created ++ map Did polling
             ++ [ Log "Pod is RUNNING!";
                  Log "Connecting via SSH to install ComfyUI and Models..." ])%list in
          match execute_setup_run service ready_pod config (remote world) faults with
          | (setup, Some e) =>
              ((connecting ++ relay setup ++ [Log ("ERROR: " ++ e)])%list, Finished)
          | (setup, None) =>
              let installed :=
                (connecting ++ relay setup
                 ++ [ Log "------------------------------------------------";
                      Log "Provisioning Complete!" ])%list in
              match runtime_default_get_ports_list ready_pod with
              | inl e =>
                  ((installed ++ [Log ("ERROR: " ++ str_exn e)])%list, Finished)
              | inr ports => ((installed ++ [Log (url_line ports)])%list, Finished)
              end
          end
      end
  end.

(** The lines of the script for the models. *)
Definition model_steps (config : ProvisioningConfig) : list string :=
  flat_map (fun model => [announce_line model; download_line config model])
    (filter url_checked (models config)).

(* ================================================================= *)
(** ** Strings and lists *)

Lemma prefix_append (a b : string) : String.prefix a (a ++ b) = true.
Proof.
  induction a as [|c a IH]; simpl.
  - now destruct b.
  - destruct (ascii_dec c c) as [_|ne]; [exact IH | now elim ne].
Qed.

Lemma prefix_occurs (a s : string) :
  String.prefix a s = true -> exists rest, s = a ++ rest.
Proof.
  revert s; induction a as [|c a IH]; intros s H.
  - now exists s.
  - destruct s as [|d s]; simpl in H; [discriminate|].
    destruct (ascii_dec c d) as [->|]; [|discriminate].
    destruct (IH _ H) as [rest ->]. now exists rest.
Qed.

Lemma append_assoc (a b c : string) : (a ++ b) ++ c = a ++ (b ++ c).
Proof. induction a; simpl; congruence. Qed.

Lemma append_empty_r (a : string) : a ++ "" = a.
Proof. induction a; simpl; congruence. Qed.

Lemma str_in_occurs (needle hay : string) :
  str_in needle hay = true <-> occurs needle hay.
Proof.
  split.
  - induction hay as [|c hay IH]; cbn [str_in]; intros H.
    + rewrite orb_false_r in H. destruct (prefix_occurs _ _ H) as [r E].
      now exists "", r.
    + apply orb_true_iff in H as [H|H].
      * destruct (prefix_occurs _ _ H) as [r E]. now exists "", r.
      * destruct (IH H) as (a & b & ->). now exists (String c a), b.
  - intros (a & b & ->). induction a as [|c a IH].
    + change ("" ++ needle ++ b) with (needle ++ b).
      destruct (needle ++ b) eqn:E; cbn [str_in]; rewrite <- E;
        now rewrite prefix_append.
    + change (String c a ++ needle ++ b) with (String c (a ++ needle ++ b)).
      cbn [str_in]. rewrite IH. apply orb_true_r.
Qed.

Lemma occurs_refl (s : string) : occurs s s.
Proof. exists "", "". simpl. now rewrite append_empty_r. Qed.

Lemma join_cons (sep x : string) (ls : list string) :
  ls <> [] -> join sep (x :: ls) = x ++ sep ++ join sep ls.
Proof. destruct ls; [congruence | reflexivity]. Qed.

Lemma join_snoc (sep x : string) (ls : list string) :
  ls <> [] -> join sep (ls ++ [x])%list = join sep ls ++ sep ++ x.
Proof.
  induction ls as [|y ls IH]; [congruence|]. intros _.
  destruct ls as [|z ls].
  - reflexivity.
  - change ((y :: z :: ls) ++ [x])%list with (y :: ((z :: ls) ++ [x]))%list.
    rewrite join_cons by (simpl; discriminate).
    rewrite IH by discriminate.
    rewrite (join_cons sep y (z :: ls)) by discriminate.
    now rewrite !append_assoc.
Qed.

Lemma In_join_occurs (sep l : string) (ls : list string) :
  In l ls -> occurs l (join sep ls).
Proof.
  induction ls as [|x ls IH]; [easy|]. intros [->|H].
  - destruct ls as [|y ls]; [apply occurs_refl|].
    rewrite join_cons by discriminate. now exists "", (sep ++ join sep (y :: ls)).
  - destruct ls as [|y ls]; [easy|].
    rewrite join_cons by discriminate.
    destruct (IH H) as (a & b & ->).
    exists (x ++ sep ++ a), b. now rewrite !append_assoc.
Qed.

(* ================================================================= *)
(** ** The loop of the script generator *)

Lemma script_step_lines (config : ProvisioningConfig) (model : ModelSpec) :
  model_lines config model =
  if url_checked model
  then [announce_line model; download_line config model]
  else [].
Proof.
  unfold model_lines, script_step, url_checked, download_line, wget_args,
    announce_line, list_append.
  now destruct (startswith (url model) "http").
Qed.

Lemma script_step_append (config : ProvisioningConfig)
    (script : list string) (model : ModelSpec) :
  script_step config script model = (script ++ model_lines config model)%list.
Proof.
  unfold model_lines, script_step, list_append.
  destruct (startswith (url model) "http"); simpl.
  - now rewrite <- app_assoc.
  - now rewrite app_nil_r.
Qed.

Lemma script_loop (config : ProvisioningConfig) (ms : list ModelSpec) :
  forall script,
    fold_left (script_step config) ms script
    = (script ++ flat_map (model_lines config) ms)%list.
Proof.
  induction ms as [|m ms IH]; intros script; simpl.
  - now rewrite app_nil_r.
  - now rewrite IH, script_step_append, <- app_assoc.
Qed.

Lemma setup_script_lines_eq (self : RunPodService) (config : ProvisioningConfig) :
  setup_script_lines self config
  = (script_head config ++ flat_map (model_lines config) (models config)
     ++ ["echo 'Provisioning Complete!'"])%list.
Proof.
  unfold setup_script_lines, list_append.
  now rewrite script_loop, <- app_assoc.
Qed.

Lemma download_line_in_script (self : RunPodService)
    (config : ProvisioningConfig) (model : ModelSpec) :
  In model (models config) -> url_checked model = true ->
  In (download_line config model) (setup_script_lines self config).
Proof.
  intros Hin Hok. rewrite setup_script_lines_eq.
  apply in_or_app; right. apply in_or_app; left.
  apply in_flat_map. exists model. split; [exact Hin|].
  rewrite script_step_lines, Hok. simpl; auto.
Qed.

Lemma filter_download_model_lines (config : ProvisioningConfig)
    (ms : list ModelSpec) :
  filter is_download (flat_map (model_lines config) ms)
  = map (download_line config) (filter url_checked ms).
Proof.
  induction ms as [|m ms IH]; [reflexivity|].
  simpl. rewrite filter_app, IH, script_step_lines.
  destruct (url_checked m); [|reflexivity].
  assert (Ha : is_download (announce_line m) = false) by reflexivity.
  assert (Hd : is_download (download_line config m) = true)
    by apply prefix_append.
  cbn [filter]. now rewrite Ha, Hd.
Qed.

Lemma filter_download_head (config : ProvisioningConfig) :
  filter is_download (script_head config) = [].
Proof. reflexivity. Qed.

Lemma filter_download_script (self : RunPodService) (config : ProvisioningConfig) :
  filter is_download (setup_script_lines self config)
  = map (download_line config) (filter url_checked (models config)).
Proof.
  rewrite setup_script_lines_eq, !filter_app, filter_download_head,
    filter_download_model_lines.
  simpl. now rewrite app_nil_r.
Qed.

(* ================================================================= *)
(** ** ModelSpec.install_path *)

Lemma install_path_default (m : ModelSpec) :
  truthy (subfolder m) = false -> install_path m = spec_default_dir (type m).
Proof.
  unfold install_path, truthy.
  destruct (subfolder m) as [s|]; [intros -> | intros _]; now destruct (type m).
Qed.

(** C3, as stated, fails: a [subfolder] that is set to the empty string
    is not what [install_path] returns. *)
Lemma install_path_empty_subfolder_counterexample :
  let m := mkModelSpec "a.safetensors" "https://example.com/a.safetensors"
             LORA (Some "") in
  subfolder m = Some "" /\ install_path m = "loras" /\ install_path m <> "".
Proof. repeat split. discriminate. Qed.

(** C3 (amended): [install_path] equals [subfolder] whenever [subfolder]
    is set to a non-empty string, regardless of type; when [subfolder] is
    [None] it equals the fixed per-type default directory, and a key that
    [mapping] does not hold is answered with ["checkpoints"]. *)
Theorem install_path_subfolder_or_default (m : ModelSpec) :
  (forall s, subfolder m = Some s -> s <> "" -> install_path m = s) /\
  (subfolder m = None -> install_path m = spec_default_dir (type m)) /\
  (forall k, ~ In k (map fst mapping) -> mapping_get k = "checkpoints").
Proof.
  split; [|split].
  - intros s Hs Hne. unfold install_path. rewrite Hs.
    apply String.eqb_neq in Hne. now rewrite Hne.
  - intros Hs. apply install_path_default. now rewrite Hs.
  - intros k Hk. unfold mapping_get, mapping.
    cbn [dict_get ModelType_value]. simpl in Hk.
    repeat match goal with
    | |- (if ?a =? k then _ else _) = _ =>
        destruct (String.eqb_spec a k); [tauto|]
    end.
    reflexivity.
Qed.

Lemma install_path_subfolder_or_default_witness :
  install_path (mkModelSpec "a" "http://h/a" VAE (Some "upscale_models"))
    = "upscale_models"
  /\ install_path (mkModelSpec "a" "http://h/a" VAE None) = "vae"
  /\ mapping_get "unet" = "checkpoints".
Proof.
  split; [|split].
  - apply (proj1 (install_path_subfolder_or_default
                    (mkModelSpec "a" "http://h/a" VAE (Some "upscale_models")))
             "upscale_models"); [reflexivity | discriminate].
  - apply (proj1 (proj2 (install_path_subfolder_or_default
                           (mkModelSpec "a" "http://h/a" VAE None)))).
    reflexivity.
  - apply (proj2 (proj2 (install_path_subfolder_or_default
                           (mkModelSpec "a" "http://h/a" VAE None))) "unet").
    simpl. intuition discriminate.
Defined.

(** C10: when [subfolder] is the empty string, [install_path] is the
    per-type default directory and not the empty string; [install_path]
    is non-empty whenever [subfolder] is [None] or empty. *)
Theorem install_path_empty_subfolder_default (m : ModelSpec) :
  subfolder m = None \/ subfolder m = Some "" ->
  install_path m = spec_default_dir (type m) /\ install_path m <> "".
Proof.
  intros H.
  assert (Hf : truthy (subfolder m) = false) by (destruct H as [->| ->]; reflexivity).
  rewrite (install_path_default m Hf). split; [reflexivity|].
  destruct (type m); discriminate.
Qed.

Lemma install_path_empty_subfolder_default_witness :
  install_path (mkModelSpec "e.pt" "https://example.com/e.pt" EMBEDDING (Some ""))
    = "embeddings"
  /\ install_path (mkModelSpec "e.pt" "https://example.com/e.pt" EMBEDDING (Some ""))
    <> "".
Proof.
  apply (install_path_empty_subfolder_default
           (mkModelSpec "e.pt" "https://example.com/e.pt" EMBEDDING (Some ""))).
  right. reflexivity.
Defined.

(* ================================================================= *)
(** ** generate_setup_script *)

Lemma has_auth_header_iff (config : ProvisioningConfig) (model : ModelSpec) :
  has_auth_header (download_line config model)
  = str_in "huggingface.co" (url model) && truthy (hf_token config).
Proof.
  unfold has_auth_header, startswith, download_line, wget_args.
  destruct (str_in "huggingface.co" (url model) && truthy (hf_token config)).
  - change ("wget " ++ ("--header='Authorization: Bearer "
                        ++ fmt_opt (hf_token config) ++ "'") ++ ?r)
      with ("wget --header='Authorization: Bearer "
            ++ ((fmt_opt (hf_token config) ++ "'") ++ r)).
    apply prefix_append.
  - reflexivity.
Qed.

(** C1, as stated, fails both ways: the Hugging Face domain in the path
    of a URL whose host is another one still gets the header, and a URL
    on the Hugging Face host that fails the URL check gets no download
    line at all. *)
Lemma auth_header_other_host_counterexample :
  let elsewhere := mkModelSpec "a.bin" "https://example.com/huggingface.co/a.bin"
                     CHECKPOINT None in
  let unchecked := mkModelSpec "b.bin" "ftp://huggingface.co/x/b.bin"
                     CHECKPOINT None in
  let config := scenario_config [elsewhere; unchecked] in
  spec_url_host (url elsewhere) = "example.com"
  /\ spec_auth_expected config elsewhere = false
  /\ spec_url_host (url unchecked) = "huggingface.co"
  /\ spec_auth_expected config unchecked = true
  /\ filter is_download (setup_script_lines (mkRunPodService "key") config)
     = ["wget --header='Authorization: Bearer tok' -O 'models/checkpoints/a.bin' 'https://example.com/huggingface.co/a.bin'"].
Proof. cbv zeta. repeat split. Qed.

(** C1 (amended): for every model of the configuration whose URL starts
    with ["http"], the script holds the model's download line, and that
    line carries an authorization header if and only if the text
    ["huggingface.co"] occurs anywhere in the model's URL and a non-empty
    [hf_token] is configured; the header then embeds the token, and when
    either condition fails the line has no header. *)
Theorem download_auth_header_iff (self : RunPodService)
    (config : ProvisioningConfig) (model : ModelSpec) :
  In model (models config) ->
  startswith (url model) "http" = true ->
  In (download_line config model) (setup_script_lines self config)
  /\ occurs (download_line config model) (generate_setup_script self config)
  /\ (has_auth_header (download_line config model) = true
      <-> occurs "huggingface.co" (url model) /\ truthy (hf_token config) = true)
  /\ (has_auth_header (download_line config model) = true ->
      download_line config model
      = "wget --header='Authorization: Bearer " ++ fmt_opt (hf_token config)
        ++ "' -O 'models/" ++ install_path model ++ "/" ++ name model
        ++ "' '" ++ url model ++ "'")
  /\ (has_auth_header (download_line config model) = false ->
      download_line config model
      = "wget  -O 'models/" ++ install_path model ++ "/" ++ name model
        ++ "' '" ++ url model ++ "'").
Proof.
  intros Hin Hok.
  assert (Hl := download_line_in_script self config model Hin Hok).
  split; [exact Hl|]. split; [now apply In_join_occurs|].
  rewrite has_auth_header_iff. split; [|split].
  - rewrite andb_true_iff, str_in_occurs. tauto.
  - intros H. unfold download_line, wget_args. rewrite H.
    cbn [append]. now rewrite !append_assoc.
  - intros H. unfold download_line, wget_args. now rewrite H.
Qed.

Lemma download_auth_header_iff_witness :
  let model := mkModelSpec "a.bin" "https://huggingface.co/x/a.bin"
                 CHECKPOINT None in
  let config :=
    mkProvisioningConfig "key" (Some "tok") "gpu" "COMMUNITY" 40 40 "image"
      [model] "https://github.com/comfyanonymous/ComfyUI"
      "https://github.com/ltdrdata/ComfyUI-Manager.git" in
  In model (models config)
  /\ startswith (url model) "http" = true
  /\ In (download_line config model)
       (setup_script_lines (mkRunPodService "key") config).
Proof.
  cbv zeta. split; [now left|]. split; [reflexivity|].
  refine (proj1 (download_auth_header_iff (mkRunPodService "key") _ _ _ _)).
  - simpl. left. reflexivity.
  - reflexivity.
Defined.




Lemma model_lines_steps (config : ProvisioningConfig) (ms : list ModelSpec) :
  flat_map (model_lines config) ms
  = flat_map (fun model => [announce_line model; download_line config model])
      (filter url_checked ms).
Proof.
  induction ms as [|m ms IH]; [reflexivity|].
  cbn [flat_map filter]. rewrite IH, script_step_lines.
  now destruct (url_checked m).
Qed.

Lemma join_app (sep : string) (a b : list string) :
  a <> [] -> b <> [] ->
  join sep (a ++ b)%list = join sep a ++ sep ++ join sep b.
Proof.
  intros Ha Hb. induction a as [|x a IH]; [congruence|].
  destruct a as [|y a].
  - cbn [List.app]. now rewrite join_cons by exact Hb.
  - change ((x :: y :: a) ++ b)%list with (x :: ((y :: a) ++ b))%list.
    rewrite join_cons by discriminate.
    rewrite IH by discriminate.
    rewrite (join_cons sep x (y :: a)) by discriminate.
    now rewrite !append_assoc.
Qed.

Lemma generate_setup_script_steps (self : RunPodService)
    (config : ProvisioningConfig) :
  generate_setup_script self config
  = join nl (script_head config ++ model_steps config
             ++ ["echo 'Provisioning Complete!'"])%list.
Proof.
  unfold generate_setup_script, model_steps.
  now rewrite setup_script_lines_eq, model_lines_steps.
Qed.

(** C7: the text of the script is the fixed head, then for every model
    that passes the URL check, in the order of [config.models] and once
    per entry (duplicates included), its announcement and its download
    line, then the completion line, each on a line of its own; the
    download line of a model stands in the text after the lines of the
    models before it and before the lines of the models after it, and
    targets [models/<install_path>/<name>]; and the configuration with
    the one model [a.safetensors] from Hugging Face and the token [tok]
    yields a download line for [models/checkpoints/a.safetensors] with a
    header that embeds [tok]. *)
Theorem download_lines_follow_models (self : RunPodService)
    (config : ProvisioningConfig) :
  generate_setup_script self config
  = join nl (script_head config
             ++ flat_map (fun model =>
                            [announce_line model; download_line config model])
                  (filter url_checked (models config))
             ++ ["echo 'Provisioning Complete!'"])%list
  /\ (forall earlier model later,
        models config = (earlier ++ model :: later)%list ->
        url_checked model = true ->
        generate_setup_script self config
        = join nl (script_head config
                   ++ flat_map (model_lines config) earlier
                   ++ [announce_line model])%list
          ++ nl ++ download_line config model ++ nl
          ++ join nl (flat_map (model_lines config) later
                      ++ ["echo 'Provisioning Complete!'"])%list)
  /\ filter is_download (setup_script_lines self config)
     = map (download_line config) (filter url_checked (models config))
  /\ (forall model, exists args,
        download_line config model
        = "wget " ++ args ++ " -O 'models/" ++ install_path model ++ "/"
          ++ name model ++ "' '" ++ url model ++ "'")
  /\ filter is_download (setup_script_lines self (scenario_config [scenario_model]))
     = [scenario_line]
  /\ occurs scenario_line
       (generate_setup_script self (scenario_config [scenario_model]))
  /\ filter is_download
       (setup_script_lines self (scenario_config [scenario_model; scenario_model]))
     = [scenario_line; scenario_line].
Proof.
  split; [|split; [|split; [|split; [|split; [|split]]]]].
  - apply generate_setup_script_steps.
  - intros earlier model later Hm Hok.
    unfold generate_setup_script. rewrite setup_script_lines_eq, Hm.
    rewrite flat_map_app. cbn [flat_map].
    rewrite script_step_lines, Hok.
    set (before := flat_map (model_lines config) earlier).
    set (after := flat_map (model_lines config) later).
    replace (script_head config
             ++ (before
                 ++ [announce_line model; download_line config model] ++ after)
             ++ ["echo 'Provisioning Complete!'"])%list
      with ((script_head config ++ before ++ [announce_line model])
            ++ [download_line config model]
            ++ (after ++ ["echo 'Provisioning Complete!'"]))%list
      by (now rewrite <- !app_assoc).
    rewrite (join_app nl (script_head config ++ before ++ [announce_line model])).
    + rewrite (join_app nl [download_line config model]).
      * reflexivity.
      * discriminate.
      * destruct after; discriminate.
    + unfold script_head. discriminate.
    + discriminate.
  - apply filter_download_script.
  - intros model. exists (wget_args config model). reflexivity.
  - reflexivity.
  - apply In_join_occurs. vm_compute. tauto.
  - reflexivity.
Qed.

Lemma download_lines_follow_models_witness :
  let config := scenario_config [scenario_model; scenario_model] in
  generate_setup_script (mkRunPodService "key") config
  = join nl (script_head config
             ++ flat_map (model_lines config) [scenario_model]
             ++ [announce_line scenario_model])%list
    ++ nl ++ download_line config scenario_model ++ nl
    ++ join nl (flat_map (model_lines config) []
                ++ ["echo 'Provisioning Complete!'"])%list.
Proof.
  cbv zeta.
  apply (proj1 (proj2 (download_lines_follow_models (mkRunPodService "key")
                         (scenario_config [scenario_model; scenario_model])))
           [scenario_model] scenario_model []);
    reflexivity.
Defined.

(** C8: the text of the script begins with the shebang line followed by
    [set -e], goes on with the clone-if-absent step of the application,
    the change of directory, the dependency install and the
    clone-if-absent step of the manager, then has the lines of the
    models, and ends with the completion echo; with [models=[]] it is
    exactly those fixed lines and the completion echo, with no download
    line. *)
Theorem script_shape (self : RunPodService) (config : ProvisioningConfig) :
  (exists body,
     generate_setup_script self config
     = "#!/bin/bash" ++ nl ++ "set -e" ++ nl ++ body ++ nl
       ++ "echo 'Provisioning Complete!'")
  /\ (exists tail,
        generate_setup_script self config
        = "#!/bin/bash" ++ nl
          ++ "set -e" ++ nl
          ++ "echo 'Starting ComfyUI Provisioning...'" ++ nl
          ++ "cd /workspace" ++ nl
          ++ nl
          ++ "# Install ComfyUI" ++ nl
          ++ "if [ ! -d 'ComfyUI' ]; then" ++ nl
          ++ "  git clone " ++ comfyui_repo config ++ nl
          ++ "fi" ++ nl
          ++ "cd ComfyUI" ++ nl
          ++ "pip install -r requirements.txt" ++ nl
          ++ nl
          ++ "# Install Manager" ++ nl
          ++ "cd custom_nodes" ++ nl
          ++ "if [ ! -d 'ComfyUI-Manager' ]; then" ++ nl
          ++ "  git clone " ++ comfyui_manager_repo config ++ nl
          ++ "fi" ++ nl
          ++ "cd .." ++ nl
          ++ nl
          ++ "# Download Models" ++ nl
          ++ tail
        /\ tail = join nl (model_steps config
                           ++ ["echo 'Provisioning Complete!'"])%list
        /\ (models config = [] -> tail = "echo 'Provisioning Complete!'"))
  /\ (exists steps,
        setup_script_lines self config
        = (script_head config ++ steps ++ ["echo 'Provisioning Complete!'"])%list
        /\ (models config = [] -> steps = []))
  /\ (In "if [ ! -d 'ComfyUI' ]; then" (setup_script_lines self config)
      /\ In ("  git clone " ++ comfyui_repo config) (setup_script_lines self config)
      /\ In "pip install -r requirements.txt" (setup_script_lines self config)
      /\ In "if [ ! -d 'ComfyUI-Manager' ]; then" (setup_script_lines self config)
      /\ In ("  git clone " ++ comfyui_manager_repo config)
           (setup_script_lines self config))
  /\ (models config = [] ->
      filter is_download (setup_script_lines self config) = []).
Proof.
  split; [|split; [|split; [|split]]].
  - unfold generate_setup_script. rewrite setup_script_lines_eq.
    set (steps := flat_map (model_lines config) (models config)).
    rewrite app_assoc, join_snoc by (unfold script_head; discriminate).
    unfold script_head.
    cbn [app].
    match goal with
    | |- context [join nl (_ :: _ :: ?rest)] => exists (join nl rest)
    end.
    rewrite join_cons by discriminate.
    rewrite join_cons by discriminate.
    now rewrite !append_assoc.
  - exists (join nl (model_steps config ++ ["echo 'Provisioning Complete!'"])%list).
    split; [|split].
    + rewrite generate_setup_script_steps.
      set (rest := (model_steps config ++ ["echo 'Provisioning Complete!'"])%list).
      assert (Hne : rest <> []) by (subst rest; destruct (model_steps config); discriminate).
      unfold script_head. cbn [List.app].
      do 19 (rewrite join_cons by discriminate).
      rewrite join_cons by exact Hne.
      cbn [append]. rewrite ?append_assoc. reflexivity.
    + reflexivity.
    + unfold model_steps. now intros ->.
  - exists (flat_map (model_lines config) (models config)). split.
    + apply setup_script_lines_eq.
    + now intros ->.
  - rewrite setup_script_lines_eq.
    repeat split; apply in_or_app; left; simpl; tauto.
  - intros H. rewrite filter_download_script, H. reflexivity.
Qed.

Lemma script_shape_witness :
  models (default_config "key") = []
  /\ filter is_download
       (setup_script_lines (mkRunPodService "key") (default_config "key")) = []
  /\ generate_setup_script (mkRunPodService "key") (default_config "key")
     = join nl
         [ "#!/bin/bash"; "set -e"; "echo 'Starting ComfyUI Provisioning...'";
           "cd /workspace"; ""; "# Install ComfyUI";
           "if [ ! -d 'ComfyUI' ]; then";
           "  git clone https://github.com/comfyanonymous/ComfyUI"; "fi";
           "cd ComfyUI"; "pip install -r requirements.txt"; "";
           "# Install Manager"; "cd custom_nodes";
           "if [ ! -d 'ComfyUI-Manager' ]; then";
           "  git clone https://github.com/ltdrdata/ComfyUI-Manager.git"; "fi";
           "cd .."; ""; "# Download Models"; "echo 'Provisioning Complete!'" ].
Proof.
  split; [reflexivity|]. split.
  - apply (proj2 (proj2 (proj2 (proj2 (script_shape (mkRunPodService "key")
                                         (default_config "key")))))).
    reflexivity.
  - destruct (proj1 (proj2 (script_shape (mkRunPodService "key")
                              (default_config "key"))))
      as (tail & Htext & _ & Hempty).
    rewrite Htext, (Hempty eq_refl). reflexivity.
Defined.

Lemma script_step_fields (c1 c2 : ProvisioningConfig) :
  hf_token c1 = hf_token c2 -> script_step c1 = script_step c2.
Proof. unfold script_step. now intros ->. Qed.

(** C9: two calls of [generate_setup_script] on equal configurations
    give the same text, whichever service object makes them; the text
    depends on the configuration only through its two repository URLs,
    its [hf_token] and its models. *)
Theorem generate_setup_script_deterministic
    (self1 self2 : RunPodService) (c1 c2 : ProvisioningConfig) :
  (c1 = c2 -> generate_setup_script self1 c1 = generate_setup_script self2 c2)
  /\ (comfyui_repo c1 = comfyui_repo c2 ->
      comfyui_manager_repo c1 = comfyui_manager_repo c2 ->
      hf_token c1 = hf_token c2 ->
      models c1 = models c2 ->
      generate_setup_script self1 c1 = generate_setup_script self2 c2).
Proof.
  assert (H : comfyui_repo c1 = comfyui_repo c2 ->
              comfyui_manager_repo c1 = comfyui_manager_repo c2 ->
              hf_token c1 = hf_token c2 ->
              models c1 = models c2 ->
              generate_setup_script self1 c1 = generate_setup_script self2 c2).
  { intros Hr Hm Ht Hl.
    unfold generate_setup_script, setup_script_lines, script_head.
    now rewrite Hr, Hm, Hl, (script_step_fields c1 c2 Ht). }
  split; [|exact H].
  intros ->. now apply H.
Qed.

Lemma generate_setup_script_deterministic_witness :
  let model := mkModelSpec "a.safetensors"
                 "https://huggingface.co/x/a.safetensors" CHECKPOINT None in
  let c1 :=
    mkProvisioningConfig "key-one" (Some "tok") "gpu" "COMMUNITY" 40 40 "image"
      [model] "https://github.com/comfyanonymous/ComfyUI"
      "https://github.com/ltdrdata/ComfyUI-Manager.git" in
  let c2 :=
    mkProvisioningConfig "key-two" (Some "tok") "other gpu" "SECURE" 80 20
      "other image" [model] "https://github.com/comfyanonymous/ComfyUI"
      "https://github.com/ltdrdata/ComfyUI-Manager.git" in
  generate_setup_script (mkRunPodService "key-one") c1
  = generate_setup_script (mkRunPodService "key-one") c1
  /\ generate_setup_script (mkRunPodService "key-one") c1
     = generate_setup_script (mkRunPodService "key-two") c2.
Proof.
  cbv zeta. split.
  - apply (proj1 (generate_setup_script_deterministic _ _ _ _)). reflexivity.
  - apply (proj2 (generate_setup_script_deterministic _ _ _ _)); reflexivity.
Defined.

(* ================================================================= *)
(** ** wait_for_pod *)

Lemma wait_for_pod_keeps_polling (self : RunPodService) (pod : Pod)
    (later : list Pod) :
  keeps_polling pod = true ->
  wait_for_pod self (pod :: later)
  = (fst (wait_for_pod self later),
     GetPod :: Sleep 2 :: snd (wait_for_pod self later)).
Proof.
  unfold keeps_polling, runtime_default_get_ports. intros H.
  apply andb_true_iff in H as [Hx Hr]. apply negb_true_iff in Hx.
  cbn [wait_for_pod]. unfold runtime_default_get_ports. rewrite Hx.
  destruct (wait_for_pod self later) as [res effects]. cbn [fst snd].
  destruct (desiredStatus pod =? "RUNNING"); [|reflexivity].
  cbn [negb orb] in Hr.
  destruct (runtime pod) as [| |[ps|]]; try discriminate; try reflexivity.
  apply negb_true_iff in Hr. now rewrite Hr.
Qed.

Lemma wait_for_pod_after_polling (self : RunPodService)
    (before later : list Pod) :
  forallb keeps_polling before = true ->
  wait_for_pod self (before ++ later)
  = (fst (wait_for_pod self later),
     (polled (List.length before) ++ snd (wait_for_pod self later))%list).
Proof.
  induction before as [|pod before IH]; intros H.
  - simpl. now destruct (wait_for_pod self later).
  - cbn [forallb] in H. apply andb_true_iff in H as [Hp Hb].
    change ((pod :: before) ++ later)%list with (pod :: (before ++ later))%list.
    rewrite wait_for_pod_keeps_polling by exact Hp.
    now rewrite IH by exact Hb.
Qed.

Lemma polls_polled (n : nat) (effects : list Effect) :
  polls (polled n ++ effects) = (n + polls effects)%nat.
Proof.
  induction n as [|n IH]; [reflexivity|].
  unfold polls in *. simpl. now rewrite IH.
Qed.

Lemma wait_for_pod_returned (self : RunPodService) (answers : list Pod) :
  forall pod effects,
    wait_for_pod self answers = (Returned pod, effects) ->
    exists before later,
      answers = (before ++ pod :: later)%list
      /\ forallb keeps_polling before = true
      /\ desiredStatus pod = "RUNNING"
      /\ (exists ps, runtime pod = RuntimeDict (Some ps) /\ ps <> [])
      /\ effects = (polled (List.length before) ++ [GetPod])%list.
Proof.
  induction answers as [|p answers IH]; intros pod effects H.
  - discriminate.
  - cbn [wait_for_pod] in H. unfold runtime_default_get_ports in H.
    destruct (desiredStatus p =? "RUNNING") eqn:Hrun.
    + destruct (runtime p) as [| |[ps|]] eqn:Hrt.
      * destruct (desiredStatus p =? "EXITED") eqn:Hex; [discriminate|].
        destruct (wait_for_pod self answers) as [res eff] eqn:Hw.
        inversion H; subst.
        destruct (IH _ _ eq_refl) as (b & l & -> & Hb & Hs & Hp & ->).
        exists (p :: b), l. repeat split; try assumption.
        cbn [forallb]. rewrite Hb, andb_true_r.
        unfold keeps_polling. now rewrite Hex, Hrun, Hrt.
      * discriminate.
      * destruct ps as [|q ps]; cbn [nonempty] in H.
        -- destruct (desiredStatus p =? "EXITED") eqn:Hex; [discriminate|].
           destruct (wait_for_pod self answers) as [res eff] eqn:Hw.
           inversion H; subst.
           destruct (IH _ _ eq_refl) as (b & l & -> & Hb & Hs & Hp & ->).
           exists (p :: b), l. repeat split; try assumption.
           cbn [forallb]. rewrite Hb, andb_true_r.
           unfold keeps_polling. now rewrite Hex, Hrun, Hrt.
        -- inversion H; subst. exists [], answers.
           repeat split.
           ++ now apply String.eqb_eq.
           ++ exists (q :: ps). split; [exact Hrt | discriminate].
      * destruct (desiredStatus p =? "EXITED") eqn:Hex; [discriminate|].
        destruct (wait_for_pod self answers) as [res eff] eqn:Hw.
        inversion H; subst.
        destruct (IH _ _ eq_refl) as (b & l & -> & Hb & Hs & Hp & ->).
        exists (p :: b), l. repeat split; try assumption.
        cbn [forallb]. rewrite Hb, andb_true_r.
        unfold keeps_polling. now rewrite Hex, Hrun, Hrt.
    + destruct (desiredStatus p =? "EXITED") eqn:Hex; [discriminate|].
      destruct (wait_for_pod self answers) as [res eff] eqn:Hw.
      inversion H; subst.
      destruct (IH _ _ eq_refl) as (b & l & -> & Hb & Hs & Hp & ->).
      exists (p :: b), l. repeat split; try assumption.
      cbn [forallb]. rewrite Hb, andb_true_r.
      unfold keeps_polling. now rewrite Hex, Hrun.
Qed.

(** C4: on every sequence of polled pods, [wait_for_pod] raises its
    [RuntimeError] at the first poll whose desired status is [EXITED]
    (the polls before it having kept the loop going) and polls no
    further; it returns the first polled pod whose desired status is
    [RUNNING] and whose port mappings are populated, at that poll; and
    it returns a pod only then. *)
Theorem wait_for_pod_exited_or_ready (self : RunPodService)
    (answers : list Pod) :
  (forall before pod later,
     answers = (before ++ pod :: later)%list ->
     forallb keeps_polling before = true ->
     desiredStatus pod = "EXITED" ->
     wait_for_pod self answers
     = (Raised (RuntimeError "Pod exited unexpectedly"),
        (polled (List.length before) ++ [GetPod])%list)
     /\ polls (snd (wait_for_pod self answers)) = S (List.length before))
  /\ (forall before pod later ps,
        answers = (before ++ pod :: later)%list ->
        forallb keeps_polling before = true ->
        desiredStatus pod = "RUNNING" ->
        runtime pod = RuntimeDict (Some ps) ->
        ps <> [] ->
        wait_for_pod self answers
        = (Returned pod, (polled (List.length before) ++ [GetPod])%list)
        /\ polls (snd (wait_for_pod self answers)) = S (List.length before))
  /\ (forall pod effects,
        wait_for_pod self answers = (Returned pod, effects) ->
        desiredStatus pod = "RUNNING"
        /\ (exists ps, runtime pod = RuntimeDict (Some ps) /\ ps <> [])
        /\ exists before later,
             answers = (before ++ pod :: later)%list
             /\ forallb keeps_polling before = true
             /\ effects = (polled (List.length before) ++ [GetPod])%list).
Proof.
  split; [|split].
  - intros before pod later -> Hb Hx.
    rewrite wait_for_pod_after_polling by exact Hb.
    cbn [wait_for_pod]. rewrite Hx.
    change ("EXITED" =? "RUNNING") with false.
    change ("EXITED" =? "EXITED") with true.
    cbn [fst snd]. split; [reflexivity|].
    rewrite polls_polled. unfold polls. simpl. lia.
  - intros before pod later ps -> Hb Hs Hr Hps.
    rewrite wait_for_pod_after_polling by exact Hb.
    cbn [wait_for_pod]. unfold runtime_default_get_ports. rewrite Hs, Hr.
    change ("RUNNING" =? "RUNNING") with true.
    destruct ps as [|q ps]; [contradiction|].
    cbn [nonempty fst snd]. split; [reflexivity|].
    rewrite polls_polled. unfold polls. simpl. lia.
  - intros pod effects H.
    destruct (wait_for_pod_returned self answers pod effects H)
      as (b & l & E & Hb & Hs & Hp & He).
    split; [exact Hs|]. split; [exact Hp|]. now exists b, l.
Qed.

Lemma wait_for_pod_exited_or_ready_witness :
  let starting := mkPod "p1" "RUNNING" (RuntimeDict None) in
  let created := mkPod "p1" "CREATED" RuntimeMissing in
  let gone := mkPod "p1" "EXITED" RuntimeNone in
  let up := mkPod "p1" "RUNNING"
              (RuntimeDict (Some [mkPortMapping 22 10022 "203.0.113.7"])) in
  wait_for_pod (mkRunPodService "key") [created; starting; gone; up]
  = (Raised (RuntimeError "Pod exited unexpectedly"),
     [GetPod; Sleep 2; GetPod; Sleep 2; GetPod])
  /\ wait_for_pod (mkRunPodService "key") [created; starting; up; gone]
     = (Returned up, [GetPod; Sleep 2; GetPod; Sleep 2; GetPod])
  /\ desiredStatus up = "RUNNING".
Proof.
  cbv zeta. split; [|split].
  - apply (proj1 (wait_for_pod_exited_or_ready (mkRunPodService "key")
                    [mkPod "p1" "CREATED" RuntimeMissing;
                     mkPod "p1" "RUNNING" (RuntimeDict None);
                     mkPod "p1" "EXITED" RuntimeNone;
                     mkPod "p1" "RUNNING"
                       (RuntimeDict (Some [mkPortMapping 22 10022 "203.0.113.7"]))])
             [mkPod "p1" "CREATED" RuntimeMissing;
              mkPod "p1" "RUNNING" (RuntimeDict None)]
             (mkPod "p1" "EXITED" RuntimeNone)
             [mkPod "p1" "RUNNING"
                (RuntimeDict (Some [mkPortMapping 22 10022 "203.0.113.7"]))]);
      reflexivity.
  - apply (proj1 (proj2 (wait_for_pod_exited_or_ready (mkRunPodService "key")
                    [mkPod "p1" "CREATED" RuntimeMissing;
                     mkPod "p1" "RUNNING" (RuntimeDict None);
                     mkPod "p1" "RUNNING"
                       (RuntimeDict (Some [mkPortMapping 22 10022 "203.0.113.7"]));
                     mkPod "p1" "EXITED" RuntimeNone]))
             [mkPod "p1" "CREATED" RuntimeMissing;
              mkPod "p1" "RUNNING" (RuntimeDict None)]
             (mkPod "p1" "RUNNING"
                (RuntimeDict (Some [mkPortMapping 22 10022 "203.0.113.7"])))
             [mkPod "p1" "EXITED" RuntimeNone]
             [mkPortMapping 22 10022 "203.0.113.7"]);
      try reflexivity. discriminate.
  - apply (proj2 (proj2 (wait_for_pod_exited_or_ready (mkRunPodService "key")
                    [mkPod "p1" "CREATED" RuntimeMissing;
                     mkPod "p1" "RUNNING"
                       (RuntimeDict (Some [mkPortMapping 22 10022 "203.0.113.7"]))]))
             _ [GetPod; Sleep 2; GetPod]).
    reflexivity.
Defined.

(* ================================================================= *)
(** ** execute_setup *)

Lemma find_ssh_absent (ps : list PortMapping) :
  (forall p, In p ps -> privatePort p <> 22%Z) -> find_ssh ps = (None, None).
Proof.
  induction ps as [|p ps IH]; intros H; [reflexivity|].
  cbn [find_ssh].
  destruct (Z.eqb_spec (privatePort p) 22) as [E|_].
  - exfalso. apply (H p); [now left | exact E].
  - apply IH. intros q Hq. apply H. now right.
Qed.

(** C6: for a pod whose port mappings hold no entry for private port 22,
    [execute_setup] yields exactly one line, which reports the failure,
    and ends: it makes no connection attempt and does nothing else. *)
Theorem execute_setup_without_ssh_port (self : RunPodService) (pod : Pod)
    (config : ProvisioningConfig) (remote : Remote) :
  (forall p, In p (pod_ports pod) -> privatePort p <> 22%Z) ->
  execute_setup self pod config remote = [Yield "Error: Could not find SSH port."]
  /\ yielded (execute_setup self pod config remote)
     = ["Error: Could not find SSH port."]
  /\ connects (execute_setup self pod config remote) = 0%nat.
Proof.
  intros H.
  assert (E : ssh_info pod = (None, None)).
  { unfold ssh_info, pod_ports in *.
    destruct (runtime pod) as [| |[ps|]]; try reflexivity.
    destruct (nonempty ps); [now apply find_ssh_absent | reflexivity]. }
  unfold execute_setup. rewrite E. cbn. repeat split.
Qed.

Lemma execute_setup_without_ssh_port_witness :
  let pod := mkPod "p1" "RUNNING"
               (RuntimeDict (Some [mkPortMapping 8188 18188 "203.0.113.7"])) in
  let remote := mkRemote (fun _ => None) 0 [] in
  (forall p, In p (pod_ports pod) -> privatePort p <> 22%Z)
  /\ yielded (execute_setup (mkRunPodService "key") pod (default_config "key") remote)
     = ["Error: Could not find SSH port."].
Proof.
  cbv zeta.
  assert (H : forall p,
             In p (pod_ports (mkPod "p1" "RUNNING"
                    (RuntimeDict (Some [mkPortMapping 8188 18188 "203.0.113.7"])))) ->
             privatePort p <> 22%Z).
  { simpl. intros p [<-|[]]. simpl. lia. }
  split; [exact H|].
  exact (proj1 (proj2 (execute_setup_without_ssh_port (mkRunPodService "key") _
                         (default_config "key") (mkRemote (fun _ => None) 0 []) H))).
Defined.

Lemma connect_loop_all_fail (remote : Remote) (host : string) (port : Z)
    (retries : nat) (err : nat -> string) :
  (forall i, (i < retries)%nat -> connect_error remote i = Some (err i)) ->
  forall n k, (k + S n = retries)%nat ->
    connect_loop remote host port retries (seq k (S n))
    = ((waited host port n
        ++ [Connect host port "root" 10;
            Yield ("Failed to connect via SSH: " ++ err (retries - 1)%nat)%string])%list,
       Return).
Proof.
  intros Herr. induction n as [|n IH]; intros k Hk.
  - cbn [seq connect_loop]. rewrite Herr by lia.
    replace (retries - 1)%nat with k by lia. now rewrite Nat.eqb_refl.
  - change (seq k (S (S n))) with (k :: seq (S k) (S n)).
    cbn [connect_loop]. rewrite Herr by lia.
    destruct (Nat.eqb_spec k (retries - 1)) as [E|_]; [lia|].
    rewrite IH by lia. reflexivity.
Qed.

Lemma yielded_app (a b : list Effect) :
  yielded (a ++ b) = (yielded a ++ yielded b)%list.
Proof.
  induction a as [|e a IH]; [reflexivity|].
  destruct e; simpl; now rewrite IH.
Qed.

Lemma yielded_waited (host : string) (port : Z) (n : nat) :
  yielded (waited host port n) = repeat "Waiting for SSH..." n.
Proof. induction n as [|n IH]; [reflexivity|]. simpl. now rewrite IH. Qed.

Lemma connects_app (a b : list Effect) :
  connects (a ++ b) = (connects a + connects b)%nat.
Proof. unfold connects. now rewrite filter_app, length_app. Qed.

Lemma connects_waited (host : string) (port : Z) (n : nat) :
  connects (waited host port n) = n.
Proof.
  induction n as [|n IH]; [reflexivity|].
  unfold connects in *. simpl. now rewrite IH.
Qed.

Lemma execs_app (a b : list Effect) :
  execs (a ++ b) = (execs a + execs b)%nat.
Proof. unfold execs. now rewrite filter_app, length_app. Qed.

Lemma execs_waited (host : string) (port : Z) (n : nat) :
  execs (waited host port n) = 0%nat.
Proof.
  induction n as [|n IH]; [reflexivity|].
  unfold execs in *. simpl. exact IH.
Qed.

(** C5: when the pod has an SSH port and every connection attempt
    fails, [execute_setup] makes 10 attempts, yields one
    ["Waiting for SSH..."] line after each of the first 9, yields one
    failure line after the 10th, and ends there: no command is executed
    and so no script is written or run. *)
Theorem execute_setup_all_connects_fail (self : RunPodService) (pod : Pod)
    (config : ProvisioningConfig) (remote : Remote)
    (host : string) (port : Z) (err : nat -> string) :
  ssh_info pod = (Some port, Some host) ->
  port <> 0%Z ->
  host <> "" ->
  (forall i, (i < 10)%nat -> connect_error remote i = Some (err i)) ->
  execute_setup self pod config remote
  = (Sleep 5 :: waited host port 9
     ++ [Connect host port "root" 10;
         Yield ("Failed to connect via SSH: " ++ err 9%nat)%string])%list
  /\ connects (execute_setup self pod config remote) = 10%nat
  /\ yielded (execute_setup self pod config remote)
     = (repeat "Waiting for SSH..." 9
        ++ [("Failed to connect via SSH: " ++ err 9%nat)%string])%list
  /\ execs (execute_setup self pod config remote) = 0%nat.
Proof.
  intros Hssh Hport Hhost Herr.
  assert (E : execute_setup self pod config remote
              = (Sleep 5 :: waited host port 9
                 ++ [Connect host port "root" 10;
                     Yield ("Failed to connect via SSH: " ++ err 9%nat)%string])%list).
  { unfold execute_setup. rewrite Hssh.
    apply Z.eqb_neq in Hport. apply String.eqb_neq in Hhost.
    rewrite Hport, Hhost. cbn [orb].
    rewrite (connect_loop_all_fail remote host port 10 err Herr 9 0 eq_refl).
    reflexivity. }
  rewrite E. split; [reflexivity|]. split; [|split].
  - change (Sleep 5 :: ?l) with ([Sleep 5] ++ l)%list.
    rewrite !connects_app, connects_waited. reflexivity.
  - change (Sleep 5 :: ?l) with ([Sleep 5] ++ l)%list.
    rewrite !yielded_app, yielded_waited. reflexivity.
  - change (Sleep 5 :: ?l) with ([Sleep 5] ++ l)%list.
    rewrite !execs_app, execs_waited. reflexivity.
Qed.

Lemma execute_setup_all_connects_fail_witness :
  let pod := mkPod "p1" "RUNNING"
               (RuntimeDict (Some [mkPortMapping 8188 18188 "203.0.113.7";
                                   mkPortMapping 22 10022 "203.0.113.7"])) in
  let remote := mkRemote (fun _ => Some "timed out") 0 [] in
  yielded (execute_setup (mkRunPodService "key") pod (default_config "key") remote)
  = (repeat "Waiting for SSH..." 9
     ++ ["Failed to connect via SSH: timed out"])%list
  /\ connects (execute_setup (mkRunPodService "key") pod (default_config "key") remote)
     = 10%nat.
Proof.
  cbv zeta.
  pose proof (execute_setup_all_connects_fail (mkRunPodService "key")
                (mkPod "p1" "RUNNING"
                   (RuntimeDict (Some [mkPortMapping 8188 18188 "203.0.113.7";
                                       mkPortMapping 22 10022 "203.0.113.7"])))
                (default_config "key")
                (mkRemote (fun _ => Some "timed out") 0 [])
                "203.0.113.7" 10022%Z (fun _ => "timed out")
                eq_refl) as H.
  destruct H as (_ & Hc & Hy & _).
  - lia.
  - discriminate.
  - intros i _. reflexivity.
  - split; [exact Hy | exact Hc].
Defined.

(* ================================================================= *)
(** ** More on the models and the script *)

(** X1: two models without a usable [subfolder] share an install
    directory only when they have the same type: the defaults of the five
    types are pairwise different. *)
Theorem default_directories_distinct (m1 m2 : ModelSpec) :
  truthy (subfolder m1) = false ->
  truthy (subfolder m2) = false ->
  install_path m1 = install_path m2 ->
  type m1 = type m2.
Proof.
  intros H1 H2. rewrite (install_path_default m1 H1), (install_path_default m2 H2).
  destruct (type m1), (type m2); simpl; intros E; try reflexivity; discriminate E.
Qed.

Lemma default_directories_distinct_witness :
  type (mkModelSpec "a.pt" "https://example.com/a.pt" VAE None)
  = type (mkModelSpec "b.pt" "https://example.com/b.pt" VAE (Some "")).
Proof.
  apply (default_directories_distinct
           (mkModelSpec "a.pt" "https://example.com/a.pt" VAE None)
           (mkModelSpec "b.pt" "https://example.com/b.pt" VAE (Some "")));
    reflexivity.
Defined.

Lemma model_lines_length (config : ProvisioningConfig) (ms : list ModelSpec) :
  List.length (flat_map (model_lines config) ms)
  = (2 * List.length (filter url_checked ms))%nat.
Proof.
  induction ms as [|m ms IH]; [reflexivity|].
  cbn [flat_map filter]. rewrite length_app, IH, script_step_lines.
  destruct (url_checked m); simpl; lia.
Qed.

(** X2: the script has the 20 fixed lines, two lines for every model
    whose URL starts with ["http"], and the completion line; no other
    model adds or removes a line. *)
Theorem script_line_count (self : RunPodService) (config : ProvisioningConfig) :
  List.length (setup_script_lines self config)
  = (21 + 2 * List.length (filter url_checked (models config)))%nat.
Proof.
  rewrite setup_script_lines_eq, !length_app, model_lines_length.
  simpl. lia.
Qed.

Lemma flat_map_ext_In {A B : Type} (f g : A -> list B) (l : list A) :
  (forall a, In a l -> f a = g a) -> flat_map f l = flat_map g l.
Proof.
  induction l as [|a l IH]; intros H; [reflexivity|].
  simpl. rewrite (H a) by now left.
  rewrite IH; [reflexivity|]. intros b Hb. apply H. now right.
Qed.

(** X3: the script does not depend on [hf_token] when the token is unset
    or empty on both sides, or when no model that passes the URL check
    has ["huggingface.co"] in its URL: the token then appears nowhere in
    the text. *)
Theorem script_ignores_unused_token (self : RunPodService)
    (c1 c2 : ProvisioningConfig) :
  comfyui_repo c1 = comfyui_repo c2 ->
  comfyui_manager_repo c1 = comfyui_manager_repo c2 ->
  models c1 = models c2 ->
  (truthy (hf_token c1) = false /\ truthy (hf_token c2) = false)
  \/ (forall m, In m (models c1) -> url_checked m = true ->
                str_in "huggingface.co" (url m) = false) ->
  generate_setup_script self c1 = generate_setup_script self c2.
Proof.
  intros Hr Hm Hl Hcase. unfold generate_setup_script.
  rewrite !setup_script_lines_eq. unfold script_head.
  rewrite Hr, Hm, <- Hl. do 3 f_equal.
  apply flat_map_ext_In. intros m Hin. rewrite !script_step_lines.
  destruct (url_checked m) eqn:Hok; [|reflexivity].
  unfold download_line, wget_args.
  destruct Hcase as [[H1 H2]|H].
  - now rewrite H1, H2, !andb_false_r.
  - now rewrite (H m Hin Hok).
Qed.

Lemma script_ignores_unused_token_witness :
  let m := mkModelSpec "a.bin" "https://example.com/a.bin" LORA None in
  generate_setup_script (mkRunPodService "key")
    (set_hf_token (Some "secret") (append_model m (default_config "key")))
  = generate_setup_script (mkRunPodService "key")
      (append_model m (default_config "key")).
Proof.
  cbv zeta.
  apply (script_ignores_unused_token (mkRunPodService "key")); try reflexivity.
  right. simpl. intros m [<-|[]] _. reflexivity.
Defined.

Lemma occurs_trans (a b c : string) : occurs a b -> occurs b c -> occurs a c.
Proof.
  intros (p & q & ->) (r & s & ->).
  exists (r ++ p), (q ++ s). now rewrite !append_assoc.
Qed.

(** X4: when a token is configured and some model that passes the URL
    check has ["huggingface.co"] in its URL, the token stands in clear in
    the script, and so in the command that writes the script on the
    pod. *)
Theorem token_written_to_pod (self : RunPodService)
    (config : ProvisioningConfig) (model : ModelSpec) (tok : string) :
  In model (models config) ->
  url_checked model = true ->
  str_in "huggingface.co" (url model) = true ->
  hf_token config = Some tok ->
  tok <> "" ->
  occurs ("Authorization: Bearer " ++ tok ++ "'")
    (generate_setup_script self config)
  /\ occurs ("Authorization: Bearer " ++ tok ++ "'") (write_command self config).
Proof.
  intros Hin Hok Hhf Htok Hne.
  assert (Hs : occurs ("Authorization: Bearer " ++ tok ++ "'")
                 (generate_setup_script self config)).
  { apply occurs_trans with (download_line config model).
    - unfold download_line, wget_args. rewrite Hhf, Htok. cbn [truthy fmt_opt].
      apply String.eqb_neq in Hne. rewrite Hne. cbn [negb andb].
      exists "wget --header='",
        (" -O '" ++ "models/" ++ install_path model ++ "/" ++ name model
         ++ "' '" ++ url model ++ "'").
      cbn [append]. now rewrite !append_assoc.
    - apply In_join_occurs. now apply download_line_in_script. }
  split; [exact Hs|].
  apply occurs_trans with (generate_setup_script self config); [exact Hs|].
  unfold write_command.
  exists ("cat << 'EOF' > /workspace/setup_comfy.sh" ++ nl), (nl ++ "EOF" ++ nl).
  now rewrite !append_assoc.
Qed.

Lemma token_written_to_pod_witness :
  occurs "Authorization: Bearer tok'"
    (write_command (mkRunPodService "key") (scenario_config [scenario_model])).
Proof.
  apply (proj2 (token_written_to_pod (mkRunPodService "key")
                  (scenario_config [scenario_model]) scenario_model "tok"
                  (or_introl eq_refl) eq_refl eq_refl eq_refl
                  ltac:(discriminate))).
Defined.

(* ================================================================= *)
(** ** More on wait_for_pod *)

Lemma wait_for_pod_stops (self : RunPodService) (pod : Pod) (later : list Pod) :
  keeps_polling pod = false ->
  exists res, res <> Polling /\ wait_for_pod self (pod :: later) = (res, [GetPod]).
Proof.
  unfold keeps_polling. intros H. cbn [wait_for_pod].
  unfold runtime_default_get_ports.
  destruct (desiredStatus pod =? "RUNNING") eqn:Hrun.
  - destruct (runtime pod) as [| |[ps|]].
    + destruct (desiredStatus pod =? "EXITED"); [|discriminate].
      eexists; split; [|reflexivity]; discriminate.
    + eexists; split; [|reflexivity]; discriminate.
    + destruct (nonempty ps).
      * eexists; split; [|reflexivity]; discriminate.
      * destruct (desiredStatus pod =? "EXITED"); [|discriminate].
        eexists; split; [|reflexivity]; discriminate.
    + destruct (desiredStatus pod =? "EXITED"); [|discriminate].
      eexists; split; [|reflexivity]; discriminate.
  - destruct (desiredStatus pod =? "EXITED"); [|discriminate].
    eexists; split; [|reflexivity]; discriminate.
Qed.

Lemma wait_for_pod_all_polling (self : RunPodService) (answers : list Pod) :
  forallb keeps_polling answers = true ->
  wait_for_pod self answers = (Polling, polled (List.length answers)).
Proof.
  intros H. rewrite <- (app_nil_r answers) at 1.
  rewrite wait_for_pod_after_polling by exact H.
  simpl. now rewrite app_nil_r.
Qed.

Lemma slept_polled (n : nat) (effects : list Effect) :
  slept (polled n ++ effects) = (2 * Z.of_nat n + slept effects)%Z.
Proof.
  induction n as [|n IH]; [reflexivity|].
  cbn [polled app slept]. rewrite IH. lia.
Qed.

(** X5: a polled pod whose desired status is [RUNNING] but whose
    ['runtime'] is [None] ends [wait_for_pod] with an [AttributeError]
    at that poll, although the same pod given to [execute_setup] only
    yields the missing-port line. *)
Theorem wait_for_pod_runtime_none (self : RunPodService)
    (before later : list Pod) (pod : Pod)
    (config : ProvisioningConfig) (remote : Remote) :
  forallb keeps_polling before = true ->
  desiredStatus pod = "RUNNING" ->
  runtime pod = RuntimeNone ->
  wait_for_pod self (before ++ pod :: later)
  = (Raised (AttributeError "'NoneType' object has no attribute 'get'"),
     (polled (List.length before) ++ [GetPod])%list)
  /\ execute_setup self pod config remote
     = [Yield "Error: Could not find SSH port."].
Proof.
  intros Hb Hs Hr. split.
  - rewrite wait_for_pod_after_polling by exact Hb.
    cbn [wait_for_pod]. unfold runtime_default_get_ports. rewrite Hs, Hr.
    reflexivity.
  - unfold execute_setup, ssh_info. now rewrite Hr.
Qed.

Lemma wait_for_pod_runtime_none_witness :
  wait_for_pod (mkRunPodService "key")
    [mkPod "p1" "CREATED" RuntimeMissing; mkPod "p1" "RUNNING" RuntimeNone]
  = (Raised (AttributeError "'NoneType' object has no attribute 'get'"),
     [GetPod; Sleep 2; GetPod]).
Proof.
  apply (proj1 (wait_for_pod_runtime_none (mkRunPodService "key")
                  [mkPod "p1" "CREATED" RuntimeMissing] []
                  (mkPod "p1" "RUNNING" RuntimeNone)
                  (default_config "key") (mkRemote (fun _ => None) 0 [])
                  eq_refl eq_refl eq_refl)).
Defined.

(** X6: [wait_for_pod] has no bound of its own: as long as no polled pod
    is ready, exited or broken it keeps polling, sleeping 2 seconds
    after every poll, and has neither returned nor raised. *)
Theorem wait_for_pod_unbounded (self : RunPodService) (answers : list Pod) :
  forallb keeps_polling answers = true ->
  wait_for_pod self answers = (Polling, polled (List.length answers))
  /\ polls (snd (wait_for_pod self answers)) = List.length answers
  /\ slept (snd (wait_for_pod self answers))
     = (2 * Z.of_nat (List.length answers))%Z.
Proof.
  intros H. rewrite (wait_for_pod_all_polling self answers H). cbn [snd].
  split; [reflexivity|]. split.
  - rewrite <- (app_nil_r (polled _)), polls_polled. unfold polls. simpl. lia.
  - rewrite <- (app_nil_r (polled _)), slept_polled. simpl. lia.
Qed.

Lemma wait_for_pod_unbounded_witness :
  let starting := mkPod "p1" "RUNNING" (RuntimeDict (Some [])) in
  wait_for_pod (mkRunPodService "key") (repeat starting 50)
  = (Polling, polled 50).
Proof.
  cbv zeta.
  apply (proj1 (wait_for_pod_unbounded (mkRunPodService "key")
                  (repeat (mkPod "p1" "RUNNING" (RuntimeDict (Some []))) 50)
                  eq_refl)).
Defined.

Lemma answers_split (answers : list Pod) :
  forallb keeps_polling answers = true
  \/ exists before pod later,
       answers = (before ++ pod :: later)%list
       /\ forallb keeps_polling before = true
       /\ keeps_polling pod = false.
Proof.
  induction answers as [|p answers IH]; [now left|].
  destruct (keeps_polling p) eqn:Hp.
  - destruct IH as [H|(b & q & l & -> & Hb & Hq)].
    + left. cbn [forallb]. now rewrite Hp, H.
    + right. exists (p :: b), q, l. repeat split; try assumption.
      cbn [forallb]. now rewrite Hp, Hb.
  - right. exists [], p, answers. repeat split. exact Hp.
Qed.

(** X7: every run of [wait_for_pod] is a number of polls each followed
    by a 2-second sleep and, when the loop ends, one last poll with no
    sleep after it: a run that returns or raises after [n] polls has
    slept [2 * (n - 1)] seconds. *)
Theorem wait_for_pod_trace (self : RunPodService) (answers : list Pod) :
  exists k,
    (fst (wait_for_pod self answers) = Polling
     /\ k = List.length answers
     /\ snd (wait_for_pod self answers) = polled k)
    \/ (fst (wait_for_pod self answers) <> Polling
        /\ (k < List.length answers)%nat
        /\ snd (wait_for_pod self answers) = (polled k ++ [GetPod])%list
        /\ polls (snd (wait_for_pod self answers)) = S k
        /\ slept (snd (wait_for_pod self answers)) = (2 * Z.of_nat k)%Z).
Proof.
  destruct (answers_split answers) as [H|(b & p & l & -> & Hb & Hp)].
  - exists (List.length answers). left.
    rewrite (wait_for_pod_all_polling self answers H). auto.
  - exists (List.length b). right.
    rewrite wait_for_pod_after_polling by exact Hb.
    destruct (wait_for_pod_stops self p l Hp) as (res & Hres & ->).
    cbn [fst snd]. split; [exact Hres|]. split.
    + rewrite length_app. simpl. lia.
    + split; [reflexivity|]. split.
      * rewrite polls_polled. unfold polls. simpl. lia.
      * rewrite slept_polled. simpl. lia.
Qed.

(* ================================================================= *)
(** ** More on execute_setup *)

Lemma connect_loop_succeeds (remote : Remote) (host : string) (port : Z)
    (retries : nat) (err : nat -> string) (j : nat) :
  (forall i, (i < j)%nat -> connect_error remote i = Some (err i)) ->
  connect_error remote j = None ->
  (j < retries)%nat ->
  forall d k n, (k + d = j)%nat -> (k + n = retries)%nat ->
    connect_loop remote host port retries (seq k n)
    = ((waited host port d ++ [Connect host port "root" 10])%list, Break).
Proof.
  intros Herr Hok Hj. induction d as [|d IH]; intros k n Hk Hn.
  - destruct n as [|n]; [lia|]. cbn [seq connect_loop].
    replace k with j by lia. now rewrite Hok.
  - destruct n as [|n]; [lia|]. cbn [seq connect_loop].
    rewrite Herr by lia.
    destruct (Nat.eqb_spec k (retries - 1)) as [E|_]; [lia|].
    rewrite (IH (S k) n) by lia. reflexivity.
Qed.

Lemma connect_loop_cases (remote : Remote) (host : string) (port : Z)
    (retries : nat) :
  forall n k, (k + S n = retries)%nat ->
    (exists j, (j <= n)%nat
       /\ connect_loop remote host port retries (seq k (S n))
          = ((waited host port j ++ [Connect host port "root" 10])%list, Break))
    \/ (exists e,
          connect_loop remote host port retries (seq k (S n))
          = ((waited host port n
              ++ [Connect host port "root" 10;
                  Yield ("Failed to connect via SSH: " ++ e)%string])%list,
             Return)).
Proof.
  induction n as [|n IH]; intros k Hk.
  - cbn [seq connect_loop]. destruct (connect_error remote k) as [e|].
    + right. exists e. replace (retries - 1)%nat with k by lia.
      now rewrite Nat.eqb_refl.
    + left. exists 0%nat. split; [lia | reflexivity].
  - change (seq k (S (S n))) with (k :: seq (S k) (S n)).
    cbn [connect_loop]. destruct (connect_error remote k) as [e|].
    + destruct (Nat.eqb_spec k (retries - 1)) as [E|_]; [lia|].
      destruct (IH (S k) ltac:(lia)) as [(j & Hj & ->)|(e' & ->)].
      * left. exists (S j). split; [lia | reflexivity].
      * right. exists e'. reflexivity.
    + left. exists 0%nat. split; [lia | reflexivity].
Qed.

(** The four ways a run of [execute_setup] can go. *)
Lemma execute_setup_cases (self : RunPodService) (pod : Pod)
    (config : ProvisioningConfig) (remote : Remote) :
  execute_setup self pod config remote = [Yield "Error: Could not find SSH port."]
  \/ (exists host port e,
        ssh_info pod = (Some port, Some host)
        /\ execute_setup self pod config remote
           = (Sleep 5 :: waited host port 9
              ++ [Connect host port "root" 10;
                  Yield ("Failed to connect via SSH: " ++ e)%string])%list)
  \/ (exists host port j, (j <= 9)%nat
        /\ ssh_info pod = (Some port, Some host)
        /\ execute_setup self pod config remote
           = (Sleep 5 :: waited host port j
              ++ [Connect host port "root" 10;
                  ExecCommand (write_command self config);
                  Yield "Failed to write setup script."])%list)
  \/ (exists host port j, (j <= 9)%nat
        /\ ssh_info pod = (Some port, Some host)
        /\ execute_setup self pod config remote
           = (Sleep 5 :: waited host port j
              ++ [Connect host port "root" 10;
                  ExecCommand (write_command self config);
                  ExecCommand run_command]
              ++ map (fun line => Yield (strip line))
                   (iter_readline (readlines remote))
              ++ [Close])%list).
Proof.
  unfold execute_setup.
  destruct (ssh_info pod) as [[port|] [host|]]; auto.
  destruct ((port =? 0)%Z || (host =? "")); auto.
  destruct (connect_loop_cases remote host port 10 9 0 eq_refl)
    as [(j & Hj & ->)|(e & ->)].
  - fold (write_command self config). fold run_command.
    destruct (negb (write_exit_status remote =? 0)%Z).
    + right; right; left. exists host, port, j. split; [exact Hj|].
      split; [reflexivity|]. now rewrite <- app_assoc.
    + right; right; right. exists host, port, j. split; [exact Hj|].
      split; [reflexivity|]. now rewrite <- app_assoc.
  - right; left. now exists host, port, e.
Qed.

Lemma slept_app (a b : list Effect) : slept (a ++ b) = (slept a + slept b)%Z.
Proof.
  induction a as [|e a IH]; [reflexivity|].
  destruct e; cbn [app slept]; rewrite IH; lia.
Qed.

Lemma slept_waited (host : string) (port : Z) (n : nat) :
  slept (waited host port n) = (2 * Z.of_nat n)%Z.
Proof.
  induction n as [|n IH]; [reflexivity|].
  cbn [waited slept]. rewrite IH. lia.
Qed.

Lemma closes_app (a b : list Effect) : closes (a ++ b) = closes a || closes b.
Proof. apply existsb_app. Qed.

Lemma closes_waited (host : string) (port : Z) (n : nat) :
  closes (waited host port n) = false.
Proof. induction n as [|n IH]; [reflexivity | exact IH]. Qed.

Lemma connects_streamed (ls : list string) :
  connects (map (fun line => Yield (strip line)) ls) = 0%nat.
Proof. induction ls as [|l ls IH]; [reflexivity | exact IH]. Qed.

Lemma execs_streamed (ls : list string) :
  execs (map (fun line => Yield (strip line)) ls) = 0%nat.
Proof. induction ls as [|l ls IH]; [reflexivity | exact IH]. Qed.

Lemma slept_streamed (ls : list string) :
  slept (map (fun line => Yield (strip line)) ls) = 0%Z.
Proof. induction ls as [|l ls IH]; [reflexivity | exact IH]. Qed.

Lemma yielded_streamed (ls : list string) :
  yielded (map (fun line => Yield (strip line)) ls) = map strip ls.
Proof. induction ls as [|l ls IH]; [reflexivity|]. simpl. now rewrite IH. Qed.

Lemma closes_streamed (ls : list string) :
  closes (map (fun line => Yield (strip line)) ls) = false.
Proof. induction ls as [|l ls IH]; [reflexivity | exact IH]. Qed.

Ltac count_effects :=
  repeat match goal with
  | |- context [?e :: waited ?h ?p ?n ++ ?l] =>
      change (e :: waited h p n ++ l)%list with ([e] ++ waited h p n ++ l)%list
  end;
  rewrite ?connects_app, ?execs_app, ?slept_app, ?closes_app, ?yielded_app,
    ?connects_waited, ?execs_waited, ?slept_waited, ?closes_waited,
    ?yielded_waited, ?connects_streamed, ?execs_streamed, ?slept_streamed,
    ?yielded_streamed, ?closes_streamed.

(** X8: whatever the pod and the SSH side do, a run of [execute_setup]
    makes at most 10 connection attempts and at most 2 [exec_command]
    calls, and sleeps at most 23 seconds in all. *)
Theorem execute_setup_bounds (self : RunPodService) (pod : Pod)
    (config : ProvisioningConfig) (remote : Remote) :
  (connects (execute_setup self pod config remote) <= 10)%nat
  /\ (execs (execute_setup self pod config remote) <= 2)%nat
  /\ (0 <= slept (execute_setup self pod config remote) <= 23)%Z.
Proof.
  destruct (execute_setup_cases self pod config remote)
    as [-> | [(h & p & e & _ & ->)
              | [(h & p & j & Hj & _ & ->) | (h & p & j & Hj & _ & ->)]]].
  - cbn. lia.
  - count_effects. cbn -[Z.add Z.mul Z.of_nat]. lia.
  - count_effects. cbn -[Z.add Z.mul Z.of_nat]. lia.
  - count_effects. cbn -[Z.add Z.mul Z.of_nat]. lia.
Qed.

Lemma execute_setup_connected (self : RunPodService) (pod : Pod)
    (config : ProvisioningConfig) (remote : Remote)
    (host : string) (port : Z) (err : nat -> string) (j : nat) :
  ssh_info pod = (Some port, Some host) ->
  port <> 0%Z ->
  host <> "" ->
  (forall i, (i < j)%nat -> connect_error remote i = Some (err i)) ->
  connect_error remote j = None ->
  (j < 10)%nat ->
  execute_setup self pod config remote
  = (Sleep 5 :: waited host port j
     ++ Connect host port "root" 10 :: ExecCommand (write_command self config)
     :: (if negb (write_exit_status remote =? 0)%Z
         then [Yield "Failed to write setup script."]
         else ExecCommand run_command
              :: map (fun line => Yield (strip line))
                   (iter_readline (readlines remote))
              ++ [Close]))%list.
Proof.
  intros Hssh Hport Hhost Herr Hok Hj.
  unfold execute_setup. rewrite Hssh.
  apply Z.eqb_neq in Hport. apply String.eqb_neq in Hhost.
  rewrite Hport, Hhost. cbn [orb].
  rewrite (connect_loop_succeeds remote host port 10 err j Herr Hok Hj j 0 10
             eq_refl eq_refl).
  fold (write_command self config). fold run_command.
  destruct (negb (write_exit_status remote =? 0)%Z);
    now rewrite <- app_assoc.
Qed.

Lemma execute_setup_run_no_faults (self : RunPodService) (pod : Pod)
    (config : ProvisioningConfig) (remote : Remote) :
  execute_setup_run self pod config remote no_faults
  = (execute_setup self pod config remote, None).
Proof.
  unfold execute_setup_run, execute_setup. cbn [no_faults write_raises run_raises read_raises].
  destruct (ssh_info pod) as [[port|] [host|]]; try reflexivity.
  destruct ((port =? 0)%Z || (host =? "")); [reflexivity|].
  destruct (connect_loop remote host port 10 (seq 0 10)) as [tried how].
  destruct how; try reflexivity;
    destruct (negb (write_exit_status remote =? 0)%Z); reflexivity.
Qed.




Lemma execute_setup_run_connected (self : RunPodService) (pod : Pod)
    (config : ProvisioningConfig) (remote : Remote) (faults : Faults)
    (host : string) (port : Z) (err : nat -> string) (j : nat) :
  ssh_info pod = (Some port, Some host) ->
  port <> 0%Z ->
  host <> "" ->
  (forall i, (i < j)%nat -> connect_error remote i = Some (err i)) ->
  connect_error remote j = None ->
  (j < 10)%nat ->
  write_exit_status remote = 0%Z ->
  write_raises faults = None ->
  run_raises faults = None ->
  execute_setup_run self pod config remote faults
  = match read_raises faults with
    | Some (n, e) =>
        if (n <=? List.length (iter_readline (readlines remote)))%nat
        then ((Sleep 5 :: waited host port j
               ++ [Connect host port "root" 10;
                   ExecCommand (write_command self config);
                   ExecCommand run_command]
               ++ map (fun line => Yield (strip line))
                    (firstn n (iter_readline (readlines remote))))%list, Some e)
        else ((Sleep 5 :: waited host port j
               ++ [Connect host port "root" 10;
                   ExecCommand (write_command self config);
                   ExecCommand run_command]
               ++ map (fun line => Yield (strip line))
                    (iter_readline (readlines remote))
               ++ [Close])%list, None)
    | None =>
        ((Sleep 5 :: waited host port j
          ++ [Connect host port "root" 10;
              ExecCommand (write_command self config);
              ExecCommand run_command]
          ++ map (fun line => Yield (strip line))
               (iter_readline (readlines remote))
          ++ [Close])%list, None)
    end.
Proof.
  intros Hssh Hport Hhost Herr Hok Hj Hw Hwr Hrr.
  unfold execute_setup_run. rewrite Hssh.
  apply Z.eqb_neq in Hport. apply String.eqb_neq in Hhost.
  rewrite Hport, Hhost. cbn [orb].
  rewrite (connect_loop_succeeds remote host port 10 err j Herr Hok Hj j 0 10
             eq_refl eq_refl).
  fold (write_command self config). fold run_command.
  rewrite Hwr, Hw, Hrr. cbn [Z.eqb negb].
  destruct (read_raises faults) as [[n e]|].
  - destruct (n <=? List.length (iter_readline (readlines remote)))%nat;
      now rewrite <- app_assoc.
  - now rewrite <- app_assoc.
Qed.

(** X10: when the pod has an SSH port, the first [j] connection attempts
    fail, attempt [j] (below 10) succeeds, the script is written with
    exit status 0 and neither [exec_command] call raises, then: if no
    read raises, [execute_setup] writes the generated script, runs it,
    yields [j] waiting lines and then every line read up to the first
    empty read, stripped, and closes the client; if read number [n]
    raises, it has yielded the [j] waiting lines and the first [n] lines
    read, stripped, and the exception leaves the generator. *)
Theorem execute_setup_streams_output (self : RunPodService) (pod : Pod)
    (config : ProvisioningConfig) (remote : Remote) (faults : Faults)
    (host : string) (port : Z) (err : nat -> string) (j : nat) :
  ssh_info pod = (Some port, Some host) ->
  port <> 0%Z ->
  host <> "" ->
  (forall i, (i < j)%nat -> connect_error remote i = Some (err i)) ->
  connect_error remote j = None ->
  (j < 10)%nat ->
  write_exit_status remote = 0%Z ->
  write_raises faults = None ->
  run_raises faults = None ->
  (read_raises faults = None ->
   execute_setup_run self pod config remote faults
   = ((Sleep 5 :: waited host port j
       ++ [Connect host port "root" 10;
           ExecCommand (write_command self config);
           ExecCommand run_command]
       ++ map (fun line => Yield (strip line)) (iter_readline (readlines remote))
       ++ [Close])%list, None)
   /\ yielded (fst (execute_setup_run self pod config remote faults))
      = (repeat "Waiting for SSH..." j
         ++ map strip (iter_readline (readlines remote)))%list
   /\ connects (fst (execute_setup_run self pod config remote faults)) = S j)
  /\ (forall n e,
        read_raises faults = Some (n, e) ->
        (n <= List.length (iter_readline (readlines remote)))%nat ->
        snd (execute_setup_run self pod config remote faults) = Some e
        /\ yielded (fst (execute_setup_run self pod config remote faults))
           = (repeat "Waiting for SSH..." j
              ++ map strip (firstn n (iter_readline (readlines remote))))%list
        /\ closes (fst (execute_setup_run self pod config remote faults)) = false).
Proof.
  intros Hssh Hport Hhost Herr Hok Hj Hw Hwr Hrr.
  rewrite (execute_setup_run_connected self pod config remote faults host port
             err j Hssh Hport Hhost Herr Hok Hj Hw Hwr Hrr).
  split.
  - intros ->. cbn [fst snd]. split; [reflexivity|]. split.
    + count_effects. cbn. now rewrite app_nil_r.
    + count_effects. cbn. lia.
  - intros n e -> Hn. apply Nat.leb_le in Hn. rewrite Hn. cbn [fst snd].
    split; [reflexivity|]. split.
    + count_effects. reflexivity.
    + count_effects. reflexivity.
Qed.

Lemma execute_setup_streams_output_witness :
  let pod := mkPod "p1" "RUNNING"
               (RuntimeDict (Some [mkPortMapping 22 10022 "203.0.113.7"])) in
  let remote :=
    mkRemote (fun i => if (i <? 3)%nat then Some "refused" else None) 0
      ["Cloning into 'ComfyUI'..." ++ nl; nl; "Provisioning Complete!" ++ nl;
       ""; "never read"] in
  yielded (fst (execute_setup_run (mkRunPodService "key") pod
                  (default_config "key") remote no_faults))
  = ["Waiting for SSH..."; "Waiting for SSH..."; "Waiting for SSH...";
     "Cloning into 'ComfyUI'..."; ""; "Provisioning Complete!"]
  /\ yielded (fst (execute_setup_run (mkRunPodService "key") pod
                     (default_config "key") remote
                     (mkFaults None None (Some (2%nat, "Socket is closed")))))
     = ["Waiting for SSH..."; "Waiting for SSH..."; "Waiting for SSH...";
        "Cloning into 'ComfyUI'..."; ""].
Proof.
  cbv zeta. split.
  - apply (proj1 (proj2 (proj1 (execute_setup_streams_output
                  (mkRunPodService "key")
                  (mkPod "p1" "RUNNING"
                     (RuntimeDict (Some [mkPortMapping 22 10022 "203.0.113.7"])))
                  (default_config "key")
                  (mkRemote (fun i => if (i <? 3)%nat then Some "refused" else None) 0
                     ["Cloning into 'ComfyUI'..." ++ nl; nl;
                      "Provisioning Complete!" ++ nl; ""; "never read"])
                  no_faults
                  "203.0.113.7" 10022%Z (fun _ => "refused") 3
                  eq_refl ltac:(lia) ltac:(discriminate)
                  ltac:(intros i Hi; destruct i as [|[|[|i]]];
                        [reflexivity | reflexivity | reflexivity | lia])
                  eq_refl ltac:(lia) eq_refl eq_refl eq_refl) eq_refl))).
  - apply (proj1 (proj2 (proj2 (execute_setup_streams_output
                  (mkRunPodService "key")
                  (mkPod "p1" "RUNNING"
                     (RuntimeDict (Some [mkPortMapping 22 10022 "203.0.113.7"])))
                  (default_config "key")
                  (mkRemote (fun i => if (i <? 3)%nat then Some "refused" else None) 0
                     ["Cloning into 'ComfyUI'..." ++ nl; nl;
                      "Provisioning Complete!" ++ nl; ""; "never read"])
                  (mkFaults None None (Some (2%nat, "Socket is closed")))
                  "203.0.113.7" 10022%Z (fun _ => "refused") 3
                  eq_refl ltac:(lia) ltac:(discriminate)
                  ltac:(intros i Hi; destruct i as [|[|[|i]]];
                        [reflexivity | reflexivity | reflexivity | lia])
                  eq_refl ltac:(lia) eq_refl eq_refl eq_refl)
                  2%nat "Socket is closed" eq_refl ltac:(simpl; lia)))).
Defined.

(** X11: when the connection succeeds but the command that writes the
    script exits with a non-zero status, [execute_setup] yields
    ["Failed to write setup script."] as its last line and stops: the
    script is never run, and the client is left open. *)
Theorem execute_setup_write_failure (self : RunPodService) (pod : Pod)
    (config : ProvisioningConfig) (remote : Remote)
    (host : string) (port : Z) (err : nat -> string) (j : nat) :
  ssh_info pod = (Some port, Some host) ->
  port <> 0%Z ->
  host <> "" ->
  (forall i, (i < j)%nat -> connect_error remote i = Some (err i)) ->
  connect_error remote j = None ->
  (j < 10)%nat ->
  write_exit_status remote <> 0%Z ->
  execute_setup self pod config remote
  = (Sleep 5 :: waited host port j
     ++ [Connect host port "root" 10;
         ExecCommand (write_command self config);
         Yield "Failed to write setup script."])%list
  /\ yielded (execute_setup self pod config remote)
     = (repeat "Waiting for SSH..." j ++ ["Failed to write setup script."])%list
  /\ execs (execute_setup self pod config remote) = 1%nat
  /\ closes (execute_setup self pod config remote) = false.
Proof.
  intros Hssh Hport Hhost Herr Hok Hj Hw.
  rewrite (execute_setup_connected self pod config remote host port err j
             Hssh Hport Hhost Herr Hok Hj).
  apply Z.eqb_neq in Hw. rewrite Hw. cbn [negb]. split; [reflexivity|].
  change (Connect host port "root" 10 :: ?l)%list
    with ([Connect host port "root" 10] ++ l)%list.
  count_effects. cbn. repeat split.
Qed.

Lemma execute_setup_write_failure_witness :
  let pod := mkPod "p1" "RUNNING"
               (RuntimeDict (Some [mkPortMapping 22 10022 "203.0.113.7"])) in
  let remote := mkRemote (fun _ => None) 1 ["never read" ++ nl] in
  yielded (execute_setup (mkRunPodService "key") pod (default_config "key") remote)
  = ["Failed to write setup script."].
Proof.
  cbv zeta.
  apply (proj1 (proj2 (execute_setup_write_failure (mkRunPodService "key")
                  (mkPod "p1" "RUNNING"
                     (RuntimeDict (Some [mkPortMapping 22 10022 "203.0.113.7"])))
                  (default_config "key")
                  (mkRemote (fun _ => None) 1 ["never read" ++ nl])
                  "203.0.113.7" 10022%Z (fun _ => "") 0
                  eq_refl ltac:(lia) ltac:(discriminate)
                  ltac:(intros i Hi; lia) eq_refl ltac:(lia) ltac:(simpl; lia)))).
Defined.

Lemma find_ssh_first (before after : list PortMapping) (p : PortMapping) :
  (forall q, In q before -> privatePort q <> 22%Z) ->
  privatePort p = 22%Z ->
  find_ssh (before ++ p :: after)%list = (Some (publicPort p), Some (ip p)).
Proof.
  intros Hb Hp. induction before as [|q before IH]; cbn [app find_ssh].
  - now rewrite Hp.
  - destruct (Z.eqb_spec (privatePort q) 22) as [E|_].
    + exfalso. apply (Hb q); [now left | exact E].
    + apply IH. intros r Hr. apply Hb. now right.
Qed.

Lemma ssh_info_first (pod : Pod) (before after : list PortMapping)
    (p : PortMapping) :
  runtime pod = RuntimeDict (Some (before ++ p :: after)%list) ->
  (forall q, In q before -> privatePort q <> 22%Z) ->
  privatePort p = 22%Z ->
  ssh_info pod = (Some (publicPort p), Some (ip p)).
Proof.
  intros Hr Hb Hp. unfold ssh_info. rewrite Hr.
  replace (nonempty (before ++ p :: after)%list) with true by now destruct before.
  now apply find_ssh_first.
Qed.

(** X12: only the first port mapping for private port 22 counts: when
    its public port is 0 or its ip is empty, [execute_setup] yields the
    missing-port line and does nothing else, whatever mappings follow
    it. *)
Theorem execute_setup_unusable_first_entry (self : RunPodService) (pod : Pod)
    (config : ProvisioningConfig) (remote : Remote)
    (before after : list PortMapping) (p : PortMapping) :
  runtime pod = RuntimeDict (Some (before ++ p :: after)%list) ->
  (forall q, In q before -> privatePort q <> 22%Z) ->
  privatePort p = 22%Z ->
  publicPort p = 0%Z \/ ip p = "" ->
  execute_setup self pod config remote = [Yield "Error: Could not find SSH port."].
Proof.
  intros Hr Hb Hp Hbad. unfold execute_setup.
  rewrite (ssh_info_first pod before after p Hr Hb Hp).
  destruct Hbad as [-> | ->]; [reflexivity|].
  now rewrite String.eqb_refl, orb_true_r.
Qed.

Lemma execute_setup_unusable_first_entry_witness :
  execute_setup (mkRunPodService "key")
    (mkPod "p1" "RUNNING"
       (RuntimeDict (Some [mkPortMapping 8188 18188 "203.0.113.7";
                           mkPortMapping 22 10022 "";
                           mkPortMapping 22 10023 "203.0.113.7"])))
    (default_config "key") (mkRemote (fun _ => None) 0 [])
  = [Yield "Error: Could not find SSH port."].
Proof.
  apply (execute_setup_unusable_first_entry (mkRunPodService "key")
           (mkPod "p1" "RUNNING"
              (RuntimeDict (Some [mkPortMapping 8188 18188 "203.0.113.7";
                                  mkPortMapping 22 10022 "";
                                  mkPortMapping 22 10023 "203.0.113.7"])))
           (default_config "key") (mkRemote (fun _ => None) 0 [])
           [mkPortMapping 8188 18188 "203.0.113.7"]
           [mkPortMapping 22 10023 "203.0.113.7"]
           (mkPortMapping 22 10022 "") eq_refl).
  - simpl. intros q [<-|[]]. simpl. lia.
  - reflexivity.
  - right. reflexivity.
Defined.

Lemma Forall_waited (host : string) (port : Z) (n : nat) :
  Forall (connects_to host port) (waited host port n).
Proof.
  induction n as [|n IH]; [constructor|].
  cbn [waited]. repeat constructor; simpl; auto.
Qed.

(** X13: when the first port mapping for private port 22 has a non-zero
    public port and a non-empty ip, [execute_setup] sleeps 5 seconds and
    then connects, and every connection attempt of the run goes to that
    ip and public port as user [root] with a timeout of 10. *)
Theorem execute_setup_targets_first_entry (self : RunPodService) (pod : Pod)
    (config : ProvisioningConfig) (remote : Remote)
    (before after : list PortMapping) (p : PortMapping) :
  runtime pod = RuntimeDict (Some (before ++ p :: after)%list) ->
  (forall q, In q before -> privatePort q <> 22%Z) ->
  privatePort p = 22%Z ->
  publicPort p <> 0%Z ->
  ip p <> "" ->
  Forall (connects_to (ip p) (publicPort p)) (execute_setup self pod config remote)
  /\ exists rest,
       execute_setup self pod config remote
       = Sleep 5 :: Connect (ip p) (publicPort p) "root" 10 :: rest.
Proof.
  intros Hr Hb Hp Hport Hip.
  assert (Hssh := ssh_info_first pod before after p Hr Hb Hp).
  assert (Hstart : forall j l, exists rest,
             (Sleep 5 :: waited (ip p) (publicPort p) j
              ++ Connect (ip p) (publicPort p) "root" 10 :: l)%list
             = Sleep 5 :: Connect (ip p) (publicPort p) "root" 10 :: rest).
  { intros [|j] l; eexists; reflexivity. }
  destruct (execute_setup_cases self pod config remote)
    as [E | [(h & q & e & Hs & E)
             | [(h & q & j & Hj & Hs & E) | (h & q & j & Hj & Hs & E)]]].
  - exfalso. revert E. unfold execute_setup. rewrite Hssh.
    apply Z.eqb_neq in Hport. apply String.eqb_neq in Hip.
    rewrite Hport, Hip. cbn [orb].
    destruct (connect_loop remote (ip p) (publicPort p) 10 (seq 0 10)) as [t how].
    destruct how; try discriminate;
      destruct (negb (write_exit_status remote =? 0)%Z); discriminate.
  - rewrite Hssh in Hs. injection Hs as <- <-. rewrite E. split.
    + constructor; [exact I|]. apply Forall_app. split; [apply Forall_waited|].
      repeat constructor; simpl; auto.
    + apply Hstart.
  - rewrite Hssh in Hs. injection Hs as <- <-. rewrite E. split.
    + constructor; [exact I|]. apply Forall_app. split; [apply Forall_waited|].
      repeat constructor; simpl; auto.
    + apply Hstart.
  - rewrite Hssh in Hs. injection Hs as <- <-. rewrite E. split.
    + constructor; [exact I|]. apply Forall_app. split; [apply Forall_waited|].
      apply Forall_app. split; [repeat constructor; simpl; auto|].
      apply Forall_app. split; [|repeat constructor].
      apply Forall_forall. intros x Hx. apply in_map_iff in Hx as (l & <- & _).
      exact I.
    + apply Hstart.
Qed.

Lemma execute_setup_targets_first_entry_witness :
  exists rest,
    execute_setup (mkRunPodService "key")
      (mkPod "p1" "RUNNING"
         (RuntimeDict (Some [mkPortMapping 8188 18188 "203.0.113.7";
                             mkPortMapping 22 10022 "203.0.113.8";
                             mkPortMapping 22 10023 "203.0.113.9"])))
      (default_config "key") (mkRemote (fun _ => Some "refused") 0 [])
    = Sleep 5 :: Connect "203.0.113.8" 10022 "root" 10 :: rest.
Proof.
  apply (proj2 (execute_setup_targets_first_entry (mkRunPodService "key")
                  (mkPod "p1" "RUNNING"
                     (RuntimeDict (Some [mkPortMapping 8188 18188 "203.0.113.7";
                                         mkPortMapping 22 10022 "203.0.113.8";
                                         mkPortMapping 22 10023 "203.0.113.9"])))
                  (default_config "key") (mkRemote (fun _ => Some "refused") 0 [])
                  [mkPortMapping 8188 18188 "203.0.113.7"]
                  [mkPortMapping 22 10023 "203.0.113.9"]
                  (mkPortMapping 22 10022 "203.0.113.8") eq_refl
                  ltac:(simpl; intros q [<-|[]]; simpl; lia)
                  eq_refl ltac:(simpl; lia) ltac:(discriminate))).
Defined.

(* ================================================================= *)
(** ** The deployment worker *)

Lemma logged_app (a b : list Event) : logged (a ++ b) = (logged a ++ logged b)%list.
Proof.
  induction a as [|e a IH]; [reflexivity|].
  destruct e; simpl; now rewrite IH.
Qed.

Lemma did_app (a b : list Event) : did (a ++ b) = (did a ++ did b)%list.
Proof.
  induction a as [|e a IH]; [reflexivity|].
  destruct e; simpl; now rewrite IH.
Qed.

Lemma logged_map_Did (effects : list Effect) : logged (map Did effects) = [].
Proof. induction effects as [|e effects IH]; [reflexivity | exact IH]. Qed.

Lemma did_map_Did (effects : list Effect) : did (map Did effects) = effects.
Proof.
  induction effects as [|e effects IH]; [reflexivity|]. simpl. now rewrite IH.
Qed.

Lemma logged_relay (effects : list Effect) :
  logged (relay effects) = map (fun line => "[REMOTE] " ++ line) (yielded effects).
Proof.
  induction effects as [|e effects IH]; [reflexivity|].
  destruct e; simpl; now rewrite IH.
Qed.

Lemma did_relay (effects : list Effect) : did (relay effects) = effects.
Proof.
  induction effects as [|e effects IH]; [reflexivity|].
  destruct e; simpl; now rewrite IH.
Qed.

Lemma connects_polled (n : nat) : connects (polled n) = 0%nat.
Proof. induction n as [|n IH]; [reflexivity | exact IH]. Qed.

Ltac read_events :=
  rewrite ?logged_app, ?did_app, ?logged_map_Did, ?did_map_Did, ?logged_relay,
    ?did_relay.

(** X14: when the provider refuses the pod, the worker logs the two
    opening lines and one [ERROR] line that carries the provider's
    message, and ends: it never polls and never opens an SSH
    connection. *)
Theorem deployment_create_failure (app : AppState) (world : World) (e : string) :
  create_answer world (create_pod_request (config_data app) (now world)) = inl e ->
  logged (fst (perform_deployment app world))
  = [ "Initializing RunPod Service...";
      "Creating Pod (GPU: " ++ gpu_type_id (config_data app) ++ ")...";
      "ERROR: Failed to create pod: " ++ e ]
  /\ did (fst (perform_deployment app world)) = []
  /\ snd (perform_deployment app world) = Finished.
Proof.
  intros H. unfold perform_deployment, create_pod. rewrite H.
  cbn. repeat split.
Qed.

Lemma deployment_create_failure_witness :
  logged (fst (perform_deployment (mkAppState (default_config "key") None)
                 (mkWorld 1700000000 (fun _ => inl "quota exceeded") []
                    (mkRemote (fun _ => None) 0 []))))
  = [ "Initializing RunPod Service...";
      "Creating Pod (GPU: NVIDIA GeForce RTX 3090)...";
      "ERROR: Failed to create pod: quota exceeded" ].
Proof.
  apply (proj1 (deployment_create_failure
                  (mkAppState (default_config "key") None)
                  (mkWorld 1700000000 (fun _ => inl "quota exceeded") []
                     (mkRemote (fun _ => None) 0 []))
                  "quota exceeded" eq_refl)).
Defined.

(** X15: when the pod is created and a poll answers desired status
    [EXITED] after polls that kept the loop going, the worker's last
    line is ["ERROR: Pod exited unexpectedly"]; it has polled up to that
    answer and no further, and made no SSH connection and no remote
    command. *)
Theorem deployment_pod_exited (app : AppState) (world : World)
    (pod exited : Pod) (before later : list Pod) :
  create_answer world (create_pod_request (config_data app) (now world)) = inr pod ->
  get_pod_answers world = (before ++ exited :: later)%list ->
  forallb keeps_polling before = true ->
  desiredStatus exited = "EXITED" ->
  logged (fst (perform_deployment app world))
  = [ "Initializing RunPod Service...";
      "Creating Pod (GPU: " ++ gpu_type_id (config_data app) ++ ")...";
      "Pod created: " ++ id pod;
      "Waiting for pod to start (this may take a few minutes)...";
      "ERROR: Pod exited unexpectedly" ]
  /\ did (fst (perform_deployment app world))
     = (polled (List.length before) ++ [GetPod])%list
  /\ connects (did (fst (perform_deployment app world))) = 0%nat
  /\ snd (perform_deployment app world) = Finished.
Proof.
  intros Hc Ha Hb Hx. unfold perform_deployment, create_pod. rewrite Hc, Ha.
  rewrite wait_for_pod_after_polling by exact Hb.
  cbn [wait_for_pod]. rewrite Hx.
  change ("EXITED" =? "RUNNING") with false.
  change ("EXITED" =? "EXITED") with true.
  cbn [fst snd]. read_events. cbn [logged did List.app str_exn].
  rewrite !app_nil_r. split; [reflexivity|]. split; [reflexivity|].
  split; [|reflexivity].
  now rewrite connects_app, connects_polled.
Qed.

Lemma deployment_pod_exited_witness :
  let starting := mkPod "p1" "RUNNING" (RuntimeDict None) in
  let gone := mkPod "p1" "EXITED" (RuntimeDict None) in
  did (fst (perform_deployment (mkAppState (default_config "key") None)
              (mkWorld 1700000000 (fun _ => inr starting)
                 [starting; starting; gone; starting]
                 (mkRemote (fun _ => None) 0 []))))
  = [GetPod; Sleep 2; GetPod; Sleep 2; GetPod].
Proof.
  cbv zeta.
  apply (proj1 (proj2 (deployment_pod_exited
                  (mkAppState (default_config "key") None)
                  (mkWorld 1700000000
                     (fun _ => inr (mkPod "p1" "RUNNING" (RuntimeDict None)))
                     [mkPod "p1" "RUNNING" (RuntimeDict None);
                      mkPod "p1" "RUNNING" (RuntimeDict None);
                      mkPod "p1" "EXITED" (RuntimeDict None);
                      mkPod "p1" "RUNNING" (RuntimeDict None)]
                     (mkRemote (fun _ => None) 0 []))
                  (mkPod "p1" "RUNNING" (RuntimeDict None))
                  (mkPod "p1" "EXITED" (RuntimeDict None))
                  [mkPod "p1" "RUNNING" (RuntimeDict None);
                   mkPod "p1" "RUNNING" (RuntimeDict None)]
                  [mkPod "p1" "RUNNING" (RuntimeDict None)]
                  eq_refl eq_refl eq_refl eq_refl))).
Defined.

(** X16: while every poll answers a pod that is neither ready nor exited
    nor broken, the worker has logged its four opening lines and nothing
    else: it is still waiting, with no error line and no timeout. *)
Theorem deployment_keeps_waiting (app : AppState) (world : World) (pod : Pod) :
  create_answer world (create_pod_request (config_data app) (now world)) = inr pod ->
  forallb keeps_polling (get_pod_answers world) = true ->
  logged (fst (perform_deployment app world))
  = [ "Initializing RunPod Service...";
      "Creating Pod (GPU: " ++ gpu_type_id (config_data app) ++ ")...";
      "Pod created: " ++ id pod;
      "Waiting for pod to start (this may take a few minutes)..." ]
  /\ did (fst (perform_deployment app world))
     = polled (List.length (get_pod_answers world))
  /\ snd (perform_deployment app world) = Waiting.
Proof.
  intros Hc Hb. unfold perform_deployment, create_pod. rewrite Hc.
  rewrite (wait_for_pod_all_polling _ _ Hb).
  cbn [fst snd]. read_events. cbn [logged did List.app].
  repeat split.
Qed.

Lemma deployment_keeps_waiting_witness :
  snd (perform_deployment (mkAppState (default_config "key") None)
         (mkWorld 1700000000
            (fun _ => inr (mkPod "p1" "CREATED" RuntimeMissing))
            (repeat (mkPod "p1" "CREATED" RuntimeMissing) 30)
            (mkRemote (fun _ => None) 0 [])))
  = Waiting.
Proof.
  apply (proj2 (proj2 (deployment_keeps_waiting
                  (mkAppState (default_config "key") None)
                  (mkWorld 1700000000
                     (fun _ => inr (mkPod "p1" "CREATED" RuntimeMissing))
                     (repeat (mkPod "p1" "CREATED" RuntimeMissing) 30)
                     (mkRemote (fun _ => None) 0 []))
                  (mkPod "p1" "CREATED" RuntimeMissing) eq_refl eq_refl))).
Defined.

Lemma returned_pod_ports (self : RunPodService) (answers : list Pod)
    (ready : Pod) (polling : list Effect) :
  wait_for_pod self answers = (Returned ready, polling) ->
  runtime_default_get_ports_list ready = inr (pod_ports ready).
Proof.
  intros H.
  destruct (wait_for_pod_returned self answers ready polling H)
    as (_ & _ & _ & _ & _ & (ps & Hps & _) & _).
  unfold runtime_default_get_ports_list, pod_ports. now rewrite Hps.
Qed.

Lemma perform_deployment_run_no_faults (app : AppState) (world : World) :
  perform_deployment_run app world no_faults = perform_deployment app world.
Proof.
  unfold perform_deployment_run, perform_deployment.
  destruct (create_pod _ _ _ _) as [e|pod]; [reflexivity|].
  destruct (wait_for_pod _ _) as [[ready|e|] polling]; try reflexivity.
  rewrite execute_setup_run_no_faults.
  destruct (runtime_default_get_ports_list ready);
    now rewrite <- ?app_assoc.
Qed.

(** X17: once [wait_for_pod] returns a pod, the worker logs every line
    that [execute_setup] yields, in order and prefixed with
    ["[REMOTE] "].  If [execute_setup] then ends without an exception,
    whatever it reported, the worker logs the separator,
    ["Provisioning Complete!"] and the URL line, and no [ERROR] line; if
    an exception leaves [execute_setup], the worker logs one [ERROR]
    line with its text instead and neither the completion nor the URL
    line. *)
Theorem deployment_relays_setup (app : AppState) (world : World)
    (faults : Faults) (pod ready : Pod) (polling : list Effect) :
  create_answer world (create_pod_request (config_data app) (now world)) = inr pod ->
  wait_for_pod (mkRunPodService (api_key (config_data app)))
    (get_pod_answers world) = (Returned ready, polling) ->
  logged (fst (perform_deployment_run app world faults))
  = ([ "Initializing RunPod Service...";
       ("Creating Pod (GPU: " ++ gpu_type_id (config_data app) ++ ")...")%string;
       ("Pod created: " ++ id pod)%string;
       "Waiting for pod to start (this may take a few minutes)...";
       "Pod is RUNNING!";
       "Connecting via SSH to install ComfyUI and Models..." ]
     ++ map (fun line => ("[REMOTE] " ++ line)%string)
          (yielded (fst (execute_setup_run
                           (mkRunPodService (api_key (config_data app)))
                           ready (config_data app) (remote world) faults)))
     ++ match snd (execute_setup_run
                     (mkRunPodService (api_key (config_data app)))
                     ready (config_data app) (remote world) faults) with
        | None => [ "------------------------------------------------";
                    "Provisioning Complete!";
                    url_line (pod_ports ready) ]
        | Some e => [ ("ERROR: " ++ e)%string ]
        end)%list
  /\ did (fst (perform_deployment_run app world faults))
     = (polling
        ++ fst (execute_setup_run (mkRunPodService (api_key (config_data app)))
                  ready (config_data app) (remote world) faults))%list
  /\ snd (perform_deployment_run app world faults) = Finished.
Proof.
  intros Hc Hw. unfold perform_deployment_run, create_pod. rewrite Hc, Hw.
  rewrite (returned_pod_ports _ _ _ _ Hw).
  destruct (execute_setup_run _ ready (config_data app) (remote world) faults)
    as [setup [e|]];
    cbn [fst snd]; read_events; cbn [logged did List.app];
    rewrite ?app_nil_r; (split; [|split; reflexivity]).
  - reflexivity.
  - now rewrite <- app_assoc.
Qed.

Lemma deployment_relays_setup_witness :
  let ready := mkPod "p1" "RUNNING"
                 (RuntimeDict (Some [mkPortMapping 22 10022 "203.0.113.7";
                                     mkPortMapping 8188 18188 "203.0.113.7"])) in
  let world := mkWorld 1700000000 (fun _ => inr ready) [ready]
                 (mkRemote (fun _ => None) 0 ["ok" ++ nl; "more" ++ nl]) in
  logged (fst (perform_deployment_run (mkAppState (default_config "key") None)
                 world no_faults))
  = [ "Initializing RunPod Service...";
      "Creating Pod (GPU: NVIDIA GeForce RTX 3090)...";
      "Pod created: p1";
      "Waiting for pod to start (this may take a few minutes)...";
      "Pod is RUNNING!";
      "Connecting via SSH to install ComfyUI and Models...";
      "[REMOTE] ok";
      "[REMOTE] more";
      "------------------------------------------------";
      "Provisioning Complete!";
      "Access ComfyUI at: http://203.0.113.7:18188" ]
  /\ logged (fst (perform_deployment_run (mkAppState (default_config "key") None)
                    world (mkFaults None None (Some (1%nat, "Socket is closed")))))
     = [ "Initializing RunPod Service...";
         "Creating Pod (GPU: NVIDIA GeForce RTX 3090)...";
         "Pod created: p1";
         "Waiting for pod to start (this may take a few minutes)...";
         "Pod is RUNNING!";
         "Connecting via SSH to install ComfyUI and Models...";
         "[REMOTE] ok";
         "ERROR: Socket is closed" ].
Proof.
  cbv zeta. split.
  - apply (proj1 (deployment_relays_setup
                  (mkAppState (default_config "key") None)
                  (mkWorld 1700000000
                     (fun _ => inr (mkPod "p1" "RUNNING"
                        (RuntimeDict (Some [mkPortMapping 22 10022 "203.0.113.7";
                                            mkPortMapping 8188 18188 "203.0.113.7"]))))
                     [mkPod "p1" "RUNNING"
                        (RuntimeDict (Some [mkPortMapping 22 10022 "203.0.113.7";
                                            mkPortMapping 8188 18188 "203.0.113.7"]))]
                     (mkRemote (fun _ => None) 0 ["ok" ++ nl; "more" ++ nl]))
                  no_faults
                  (mkPod "p1" "RUNNING"
                     (RuntimeDict (Some [mkPortMapping 22 10022 "203.0.113.7";
                                         mkPortMapping 8188 18188 "203.0.113.7"])))
                  (mkPod "p1" "RUNNING"
                     (RuntimeDict (Some [mkPortMapping 22 10022 "203.0.113.7";
                                         mkPortMapping 8188 18188 "203.0.113.7"])))
                  [GetPod] eq_refl eq_refl)).
  - apply (proj1 (deployment_relays_setup
                  (mkAppState (default_config "key") None)
                  (mkWorld 1700000000
                     (fun _ => inr (mkPod "p1" "RUNNING"
                        (RuntimeDict (Some [mkPortMapping 22 10022 "203.0.113.7";
                                            mkPortMapping 8188 18188 "203.0.113.7"]))))
                     [mkPod "p1" "RUNNING"
                        (RuntimeDict (Some [mkPortMapping 22 10022 "203.0.113.7";
                                            mkPortMapping 8188 18188 "203.0.113.7"]))]
                     (mkRemote (fun _ => None) 0 ["ok" ++ nl; "more" ++ nl]))
                  (mkFaults None None (Some (1%nat, "Socket is closed")))
                  (mkPod "p1" "RUNNING"
                     (RuntimeDict (Some [mkPortMapping 22 10022 "203.0.113.7";
                                         mkPortMapping 8188 18188 "203.0.113.7"])))
                  (mkPod "p1" "RUNNING"
                     (RuntimeDict (Some [mkPortMapping 22 10022 "203.0.113.7";
                                         mkPortMapping 8188 18188 "203.0.113.7"])))
                  [GetPod] eq_refl eq_refl)).
Defined.

Lemma execute_setup_all_fail_trace (self : RunPodService) (pod : Pod)
    (config : ProvisioningConfig) (remote : Remote)
    (host : string) (port : Z) (err : nat -> string) :
  ssh_info pod = (Some port, Some host) ->
  port <> 0%Z ->
  host <> "" ->
  (forall i, (i < 10)%nat -> connect_error remote i = Some (err i)) ->
  execute_setup self pod config remote
  = (Sleep 5 :: waited host port 9
     ++ [Connect host port "root" 10;
         Yield ("Failed to connect via SSH: " ++ err 9%nat)%string])%list.
Proof.
  intros Hssh Hport Hhost Herr. unfold execute_setup. rewrite Hssh.
  apply Z.eqb_neq in Hport. apply String.eqb_neq in Hhost.
  rewrite Hport, Hhost. cbn [orb].
  now rewrite (connect_loop_all_fail remote host port 10 err Herr 9 0 eq_refl).
Qed.

Lemma execs_polled (n : nat) : execs (polled n) = 0%nat.
Proof. induction n as [|n IH]; [reflexivity | exact IH]. Qed.

(** X18: when the pod is ready but all ten SSH connection attempts fail,
    the worker relays the nine waiting lines and the failure line and
    then still logs ["Provisioning Complete!"] and the URL line: no
    command has run on the pod and no [ERROR] line is logged. *)
Theorem deployment_complete_after_ssh_failure (app : AppState) (world : World)
    (pod ready : Pod) (polling : list Effect)
    (host : string) (port : Z) (err : nat -> string) :
  create_answer world (create_pod_request (config_data app) (now world)) = inr pod ->
  wait_for_pod (mkRunPodService (api_key (config_data app)))
    (get_pod_answers world) = (Returned ready, polling) ->
  ssh_info ready = (Some port, Some host) ->
  port <> 0%Z ->
  host <> "" ->
  (forall i, (i < 10)%nat -> connect_error (remote world) i = Some (err i)) ->
  logged (fst (perform_deployment app world))
  = ([ "Initializing RunPod Service...";
       ("Creating Pod (GPU: " ++ gpu_type_id (config_data app) ++ ")...")%string;
       ("Pod created: " ++ id pod)%string;
       "Waiting for pod to start (this may take a few minutes)...";
       "Pod is RUNNING!";
       "Connecting via SSH to install ComfyUI and Models..." ]
     ++ repeat "[REMOTE] Waiting for SSH..." 9
     ++ [ ("[REMOTE] Failed to connect via SSH: " ++ err 9%nat)%string;
          "------------------------------------------------";
          "Provisioning Complete!";
          url_line (pod_ports ready) ])%list
  /\ execs (did (fst (perform_deployment app world))) = 0%nat
  /\ snd (perform_deployment app world) = Finished.
Proof.
  intros Hc Hw Hssh Hport Hhost Herr.
  unfold perform_deployment, create_pod. rewrite Hc, Hw.
  rewrite (returned_pod_ports _ _ _ _ Hw).
  rewrite (execute_setup_all_fail_trace _ ready (config_data app) (remote world)
             host port err Hssh Hport Hhost Herr).
  cbn [fst snd]. read_events. cbn [logged did List.app].
  rewrite ?app_nil_r. split; [|split; [|reflexivity]].
  - change (Sleep 5 :: ?l)%list with ([Sleep 5] ++ l)%list.
    rewrite !yielded_app, yielded_waited. reflexivity.
  - destruct (wait_for_pod_returned _ _ _ _ Hw) as (b & l & _ & _ & _ & _ & ->).
    change (Sleep 5 :: ?l)%list with ([Sleep 5] ++ l)%list.
    now rewrite !execs_app, execs_polled, execs_waited.
Qed.

Lemma deployment_complete_after_ssh_failure_witness :
  let ready := mkPod "p1" "RUNNING"
                 (RuntimeDict (Some [mkPortMapping 22 10022 "203.0.113.7"])) in
  logged (fst (perform_deployment (mkAppState (default_config "key") None)
                 (mkWorld 1700000000 (fun _ => inr ready) [ready]
                    (mkRemote (fun _ => Some "timed out") 0 []))))
  = ([ "Initializing RunPod Service...";
       "Creating Pod (GPU: NVIDIA GeForce RTX 3090)...";
       "Pod created: p1";
       "Waiting for pod to start (this may take a few minutes)...";
       "Pod is RUNNING!";
       "Connecting via SSH to install ComfyUI and Models..." ]
     ++ repeat "[REMOTE] Waiting for SSH..." 9
     ++ [ "[REMOTE] Failed to connect via SSH: timed out";
          "------------------------------------------------";
          "Provisioning Complete!";
          "Could not determine public URL. Check RunPod dashboard." ])%list.
Proof.
  cbv zeta.
  apply (proj1 (deployment_complete_after_ssh_failure
                  (mkAppState (default_config "key") None)
                  (mkWorld 1700000000
                     (fun _ => inr (mkPod "p1" "RUNNING"
                        (RuntimeDict (Some [mkPortMapping 22 10022 "203.0.113.7"]))))
                     [mkPod "p1" "RUNNING"
                        (RuntimeDict (Some [mkPortMapping 22 10022 "203.0.113.7"]))]
                     (mkRemote (fun _ => Some "timed out") 0 []))
                  (mkPod "p1" "RUNNING"
                     (RuntimeDict (Some [mkPortMapping 22 10022 "203.0.113.7"])))
                  (mkPod "p1" "RUNNING"
                     (RuntimeDict (Some [mkPortMapping 22 10022 "203.0.113.7"])))
                  [GetPod] "203.0.113.7" 10022%Z (fun _ => "timed out")
                  eq_refl eq_refl eq_refl ltac:(lia) ltac:(discriminate)
                  ltac:(intros i _; reflexivity))).
Defined.

Lemma find_http_first (before after : list PortMapping) (p : PortMapping) :
  (forall q, In q before -> privatePort q <> 8188%Z) ->
  privatePort p = 8188%Z ->
  find_http (before ++ p :: after)%list = Some p.
Proof.
  intros Hb Hp. unfold find_http.
  induction before as [|q before IH]; cbn [List.app find].
  - now rewrite Hp.
  - destruct (Z.eqb_spec (privatePort q) 8188) as [E|_].
    + exfalso. apply (Hb q); [now left | exact E].
    + apply IH. intros r Hr. apply Hb. now right.
Qed.

(** X19: the URL line names the ip and public port of the first port
    mapping for private port 8188, whatever their values; it is the
    could-not-determine line exactly when no mapping is for 8188. *)
Theorem url_line_first_http (ports : list PortMapping) :
  (forall before p after,
     ports = (before ++ p :: after)%list ->
     (forall q, In q before -> privatePort q <> 8188%Z) ->
     privatePort p = 8188%Z ->
     url_line ports
     = "Access ComfyUI at: http://" ++ ip p ++ ":" ++ fmt_int (publicPort p))
  /\ ((forall q, In q ports -> privatePort q <> 8188%Z)
      <-> url_line ports
          = "Could not determine public URL. Check RunPod dashboard.").
Proof.
  split.
  - intros before p after -> Hb Hp. unfold url_line.
    now rewrite (find_http_first before after p Hb Hp).
  - unfold url_line, find_http. split.
    + intros H.
      destruct (find (fun p => (privatePort p =? 8188)%Z) ports) as [p|] eqn:E;
        [|reflexivity].
      apply find_some in E as [Hin Hp]. apply Z.eqb_eq in Hp.
      now elim (H p Hin).
    + destruct (find (fun p => (privatePort p =? 8188)%Z) ports) as [p|] eqn:E.
      * discriminate.
      * intros _ q Hq Hp.
        pose proof (find_none _ _ E q Hq) as Hn. cbn beta in Hn.
        apply Z.eqb_neq in Hn. contradiction.
Qed.

Lemma url_line_first_http_witness :
  url_line [mkPortMapping 22 10022 "203.0.113.7";
            mkPortMapping 8188 0 "";
            mkPortMapping 8188 18188 "203.0.113.7"]
  = "Access ComfyUI at: http://:0".
Proof.
  apply (proj1 (url_line_first_http
                  [mkPortMapping 22 10022 "203.0.113.7";
                   mkPortMapping 8188 0 "";
                   mkPortMapping 8188 18188 "203.0.113.7"])
           [mkPortMapping 22 10022 "203.0.113.7"]
           (mkPortMapping 8188 0 "")
           [mkPortMapping 8188 18188 "203.0.113.7"]
           eq_refl
           ltac:(simpl; intros q [<-|[]]; simpl; lia)
           eq_refl).
Defined.

(* ================================================================= *)
(** ** The wizard's handlers *)

(** X20: looking a model type up by its value gives the type back; a
    text that is no member's value, a member's upper-case name included,
    gives [CHECKPOINT]. *)
Theorem member_of_value_round_trip :
  (forall t, member_of_value (ModelType_value t) = t)
  /\ (forall v, (forall t, ModelType_value t <> v) ->
                member_of_value v = CHECKPOINT)
  /\ (forall t, member_of_value (ModelType_name t) = CHECKPOINT).
Proof.
  split; [|split].
  - now intros [].
  - intros v H. unfold member_of_value.
    destruct (find (fun t => ModelType_value t =? v) ModelType_members)
      as [t|] eqn:E; [|reflexivity].
    apply find_some in E as [_ E]. apply String.eqb_eq in E.
    now elim (H t).
  - now intros [].
Qed.

Lemma member_of_value_round_trip_witness :
  member_of_value "unet" = CHECKPOINT.
Proof.
  apply (proj1 (proj2 member_of_value_round_trip) "unet").
  intros []; discriminate.
Defined.




(** X22: whatever button is pressed and whatever the inputs hold, the
    model list keeps the property that every model has a non-empty name,
    a non-empty URL and no subfolder; and pressing anything but Add, or
    Add with an empty URL or name, leaves the application state as it
    was. *)
Theorem model_list_invariant (button url_value name_value m_type_val : string)
    (app : AppState) :
  Forall (fun m => name m <> "" /\ url m <> "" /\ subfolder m = None)
    (models (config_data app)) ->
  Forall (fun m => name m <> "" /\ url m <> "" /\ subfolder m = None)
    (models (config_data
               (fst (ModelScreen_on_button_pressed button url_value name_value
                       m_type_val app))))
  /\ (button <> "add_btn" \/ url_value = "" \/ name_value = "" ->
      fst (ModelScreen_on_button_pressed button url_value name_value
             m_type_val app) = app).
Proof.
  intros Hinv. unfold ModelScreen_on_button_pressed.
  destruct (String.eqb_spec button "add_btn") as [Hb|Hb].
  - destruct (String.eqb_spec url_value "") as [Hu|Hu]; cbn [orb].
    + split; [exact Hinv | reflexivity].
    + destruct (String.eqb_spec name_value "") as [Hn|Hn].
      * split; [exact Hinv | reflexivity].
      * cbn [fst config_data]. split.
        -- unfold append_model, list_append. cbn [models].
           apply Forall_app. split; [exact Hinv|].
           constructor; [|constructor]. cbn. auto.
        -- intros [H|[H|H]]; contradiction.
  - destruct (button =? "deploy_btn"); split; try exact Hinv; reflexivity.
Qed.

Lemma model_list_invariant_witness :
  fst (ModelScreen_on_button_pressed "add_btn" "https://example.com/a.bin" ""
         "lora" (mkAppState (scenario_config [scenario_model]) None))
  = mkAppState (scenario_config [scenario_model]) None.
Proof.
  apply (proj2 (model_list_invariant "add_btn" "https://example.com/a.bin" ""
                  "lora" (mkAppState (scenario_config [scenario_model]) None)
                  ltac:(repeat constructor; discriminate))).
  right. right. reflexivity.
Defined.

(** X23: [ConfigScreen.submit] never stores an empty token: a
    configuration whose [hf_token] is unset or non-empty stays so; an
    empty token input leaves the stored token as it was, and an empty
    API key leaves the whole state as it was. *)
Theorem submit_keeps_token (key token ssh_key : string) (app : AppState) :
  hf_token (config_data app) <> Some "" ->
  hf_token (config_data (fst (ConfigScreen_submit key token ssh_key app)))
    <> Some ""
  /\ (token = "" ->
      hf_token (config_data (fst (ConfigScreen_submit key token ssh_key app)))
      = hf_token (config_data app))
  /\ (key = "" -> fst (ConfigScreen_submit key token ssh_key app) = app)
  /\ (key <> "" ->
      api_key (config_data (fst (ConfigScreen_submit key token ssh_key app))) = key
      /\ models (config_data (fst (ConfigScreen_submit key token ssh_key app)))
         = models (config_data app)).
Proof.
  intros Hinv. unfold ConfigScreen_submit.
  destruct (String.eqb_spec key "") as [Hk|Hk].
  - cbn [fst]. repeat split; try assumption; try reflexivity. contradiction.
  - cbn [fst config_data].
    destruct (String.eqb_spec token "") as [Ht|Ht]; cbn [negb].
    + repeat split; try assumption; try reflexivity. contradiction.
    + repeat split; try reflexivity.
      * cbn. congruence.
      * contradiction.
      * contradiction.
Qed.

Lemma submit_keeps_token_witness :
  hf_token (config_data
              (fst (ConfigScreen_submit "rpa_key" "" ""
                      (mkAppState (scenario_config []) None))))
  = Some "tok".
Proof.
  apply (proj1 (proj2 (submit_keeps_token "rpa_key" "" ""
                         (mkAppState (scenario_config []) None)
                         ltac:(discriminate)))).
  reflexivity.
Defined.

(* ================================================================= *)
(** ** create_pod *)

Lemma fmt_int_inj (a b : Z) : fmt_int a = fmt_int b -> a = b.
Proof.
  unfold fmt_int. intros H.
  assert (Hn : forall z, Z.to_int z <> Decimal.Pos Decimal.Nil
                         /\ Z.to_int z <> Decimal.Neg Decimal.Nil).
  { intros [|p|p]; simpl; split; try discriminate;
      intros [= E]; now apply (Stdlib.Numbers.DecimalPos.Unsigned.to_uint_nonnil p). }
  apply Stdlib.Numbers.DecimalZ.to_int_inj.
  assert (E : Some (Z.to_int a) = Some (Z.to_int b)).
  { rewrite <- (NilZero.isi (Z.to_int a)) by apply Hn.
    rewrite <- (NilZero.isi (Z.to_int b)) by apply Hn.
    now rewrite H. }
  now injection E.
Qed.

(** X24: the name [create_pod] gives a pod depends on the clock's second
    alone: two requests carry the same name exactly when they are made
    in the same second, whatever their configurations. *)
Theorem create_pod_name_per_second (c1 c2 : ProvisioningConfig) (t1 t2 : Z) :
  request_name (create_pod_request c1 t1) = request_name (create_pod_request c2 t2)
  <-> t1 = t2.
Proof.
  cbn [request_name create_pod_request]. split.
  - intros H. apply fmt_int_inj.
    cbn [append] in H. now injection H.
  - now intros ->.
Qed.
